(** * SBUCourses, Backend/ratemyprofessor.py

    A shallow embedding of the scraper's control flow and of its effects on
    the remote table, followed by the properties of the pipeline.

    The program is glue between four external collaborators: the browser
    driver (selenium), the HTTP client (requests), the markup, pattern and
    JSON libraries (bs4, re, json) and the table-store client (supabase).
    Their answers are inputs of the model ([Upstream] and the fault schedule
    of the [World]); what the program does with these answers is translated
    statement by statement. *)

From Stdlib Require Import String Ascii List ZArith Bool Arith Lia DecimalString.
Import ListNotations.
Local Open Scope list_scope.
Local Open Scope string_scope.
Set Warnings "-register-all".

(** ** Python values *)

(** The values [json.loads] can return.  A dict keeps its items in insertion
    order, which is the order [data.items()] iterates in. *)
Inductive pyval : Type :=
| PyNone
| PyBool (b : bool)
| PyInt (z : Z)
| PyFloat (literal : string)
| PyStr (s : string)
| PyList (l : list pyval)
| PyDict (items : list (string * pyval)).

Definition pydict : Type := list (string * pyval).

(** [d.get(key)], [None] of Python being [None] of option here. *)
Fixpoint dict_lookup (d : pydict) (key : string) : option pyval :=
  match d with
  | [] => None
  | (k, v) :: rest => if String.eqb k key then Some v else dict_lookup rest key
  end.

(** [d.get(key, default)] *)
Definition dict_get (d : pydict) (key : string) (default : pyval) : pyval :=
  match dict_lookup d key with
  | Some v => v
  | None => default
  end.

(** An exception instance: its class and [str(e)].  Only subclasses of
    [Exception] are modelled, so [except Exception] and a bare [except]
    catch the same values. *)
Record Exn : Type := mkExn { exn_class : string; exn_msg : string }.

Inductive Result (A : Type) : Type :=
| Ok (a : A)
| Raise (e : Exn).
Arguments Ok {A} a.
Arguments Raise {A} e.

(** ** Data model *)

(** An element of [professors_data]: the dict with keys name and rmp_link. *)
Record ProfessorLink : Type := mkLink { name : string; rmp_link : string }.

(** Modelled from the spec: the columns of the "professors" table, which is
    declared in the remote store and not in the repository.  The same record
    is the [professor_data] dict of [main], which has exactly these keys. *)
Record ProfessorRow : Type := mkRow {
  row_name : string;
  row_rmp_link : string;
  rating_1_count : pyval;
  rating_2_count : pyval;
  rating_3_count : pyval;
  rating_4_count : pyval;
  rating_5_count : pyval
}.

(** A professor card of the result page, as BeautifulSoup hands it over:
    the text of its name div when there is one, and [link.get("href")]. *)
Record Card : Type := mkCard { card_name : option string; card_href : option string }.

(** ** Effects *)

Inductive StoreCall : Type :=
| SelectLimit1
| SelectByName (n : string)
| UpdateByName (d : ProfessorRow) (n : string)
| Insert (d : ProfessorRow).

Inductive BrowserCall : Type :=
| SetPageLoadTimeout (seconds : nat)
| Navigate (url : string)
| WaitClick (seconds : nat) (xpath : string)
| FindElement (xpath : string)
| ExecuteScript (js : string)
| Click
| PageSource
| Quit.

Inductive PrintArg : Type :=
| PStr (s : string)
| PExn (e : Exn)
| PRows (rows : list ProfessorRow).

(** What the process does to the outside, in program order. *)
Inductive Event : Type :=
| EvPrint (args : list PrintArg)
| EvSleep (milliseconds : nat)
| EvBrowser (c : BrowserCall)
| EvHttpGet (url : string)
| EvStore (c : StoreCall).

(** One pass of the "Show More" loop, as the browser answers it. *)
Inductive ShowMore : Type :=
| Clicked
| FindRaises (e : Exn)
| ClickRaises (e : Exn).

(** The answers of the collaborators that do not depend on the run. *)
Record Upstream : Type := mkUpstream {
  (** [driver.get(url)]: [None] when the page loads *)
  driver_get : string -> option Exn;
  (** the wait-and-click on the cookie overlay: [None] when it was clicked *)
  cookie_popup : option Exn;
  (** the wait-and-click on the advertisement overlay *)
  ad_popup : option Exn;
  (** the successive passes of the pagination loop; after the listed ones
      the button is absent *)
  show_more : list ShowMore;
  (** the cards in [driver.page_source] after that many successful clicks *)
  page_cards : nat -> list Card;
  (** [requests.get(url).text] *)
  requests_get : string -> Result string;
  (** [soup.find('script', string=re.compile(pattern))] on the given markup,
      then [.string] of the tag found *)
  soup_find_script : string -> string -> option string;
  (** [re.search(pattern, subject, re.DOTALL)], then [.group(1)] *)
  re_search_group1 : string -> string -> option string;
  (** [json.loads] *)
  json_loads : string -> Result pyval
}.

(** The part of the outside the run changes: the remote table, the failures
    the store has in stock for the coming calls (one entry per call, [None]
    or no entry for a call that is answered), and the trace so far. *)
Record World : Type := mkWorld {
  table : list ProfessorRow;
  faults : list (option Exn);
  trace : list Event
}.

(** Computations: state passing, with the state kept when an exception is
    raised. *)
Definition M (A : Type) : Type := World -> Result A * World.

Definition ret {A} (a : A) : M A := fun w => (Ok a, w).

Definition raise {A} (e : Exn) : M A := fun w => (Raise e, w).

Definition bind {A B} (m : M A) (k : A -> M B) : M B :=
  fun w =>
    match m w with
    | (Ok a, w1) => k a w1
    | (Raise e, w1) => (Raise e, w1)
    end.

(** [try: m  except Exception as e: handler e] *)
Definition try_except {A} (m : M A) (handler : Exn -> M A) : M A :=
  fun w =>
    match m w with
    | (Ok a, w1) => (Ok a, w1)
    | (Raise e, w1) => handler e w1
    end.

Declare Scope py_scope.
Delimit Scope py_scope with py.
Notation "x <- m ;; k" := (bind m (fun x => k))
  (at level 61, m at next level, right associativity) : py_scope.
Notation "m ;; k" := (bind m (fun _ => k))
  (at level 61, right associativity) : py_scope.
Local Open Scope py_scope.

Definition emit (e : Event) : M unit :=
  fun w => (Ok tt, mkWorld (table w) (faults w) (trace w ++ [e])%list).

Definition print (s : string) : M unit := emit (EvPrint [PStr s]).
Definition print_args (args : list PrintArg) : M unit := emit (EvPrint args).
Definition sleep (ms : nat) : M unit := emit (EvSleep ms).
Definition browser (c : BrowserCall) : M unit := emit (EvBrowser c).

(** A call that the collaborator answers with an exception or with nothing. *)
Definition answer (o : option Exn) : M unit :=
  match o with
  | Some e => raise e
  | None => ret tt
  end.

Definition lift {A} (r : Result A) : M A := fun w => (r, w).

(** The filter [.eq('name', n)]. *)
Definition name_is (n : string) (r : ProfessorRow) : bool := String.eqb (row_name r) n.

(** Modelled from the spec: the table-store client (select-with-filter,
    update, insert), which is a remote service and not in the repository.
    A filter applies to every row it matches; an update sets the columns it
    is given, and [professor_data] gives all of them, so a matching row
    becomes the record; an insert adds a row.  The pair is [response.data]
    and the table afterwards. *)
Definition store_semantics (c : StoreCall) (t : list ProfessorRow)
  : list ProfessorRow * list ProfessorRow :=
  match c with
  | SelectLimit1 => (firstn 1 t, t)
  | SelectByName n => (filter (name_is n) t, t)
  | UpdateByName d n =>
      (map (fun _ => d) (filter (name_is n) t),
       map (fun r => if name_is n r then d else r) t)
  | Insert d => ([d], (t ++ [d])%list)
  end.

(** [<query>.execute()]: one round trip.  A failed call raises and leaves
    the table as it was. *)
Definition execute (c : StoreCall) : M (list ProfessorRow) :=
  fun w =>
    let tr := (trace w ++ [EvStore c])%list in
    match faults w with
    | Some e :: rest => (Raise e, mkWorld (table w) rest tr)
    | _ =>
        let (data, t') := store_semantics c (table w) in
        (Ok data, mkWorld t' (tl (faults w)) tr)
    end.

(** ** scrape_professor_links *)

Definition ORIGIN : string := "https://www.ratemyprofessors.com".

(** [f"{href}"]: a str is rendered as it is, [None] as the word None. *)
Definition format_href (href : option string) : string :=
  match href with
  | Some s => s
  | None => "None"
  end.

(** The body of the loop over the cards (lines 75 to 82). *)
Definition link_of_card (link : Card) : ProfessorLink :=
  let professor_name :=
    match card_name link with
    | Some text => text
    | None => "Unknown"
    end in
  let href := card_href link in
  let full_link := ORIGIN ++ format_href href in
  mkLink professor_name full_link.

Definition cookie_xpath : string :=
  "//div[starts-with(@class, 'FullPageModal__')]//button".
Definition ad_xpath : string := "//a[@id='bx-close-inside-1177612']".
Definition show_more_button_xpath : string := "//button[text()='Show More']".

Definition ElementClickInterceptedException : string := "ElementClickInterceptedException".
Definition NoSuchElementException : string := "NoSuchElementException".

(** The body of the [try] of the pagination loop. *)
Definition show_more_attempt (o : ShowMore) : M unit :=
  sleep 500 ;;
  browser (FindElement show_more_button_xpath) ;;
  match o with
  | FindRaises e => raise e
  | _ =>
      browser (ExecuteScript "arguments[0].scrollIntoView();") ;;
      browser (ExecuteScript "window.scrollBy(0, -500);") ;;
      browser Click ;;
      match o with
      | ClickRaises e => raise e
      | _ => print "Clicked 'Show More' button"
      end
  end.

Inductive LoopControl : Type := Continue | Break.

(** One pass of [while True]: the [try] with its two handlers; an exception
    of another class is not handled. *)
Definition show_more_pass (o : ShowMore) : M LoopControl :=
  try_except (show_more_attempt o ;; ret Continue)
    (fun e =>
       if String.eqb (exn_class e) ElementClickInterceptedException then
         print "Element is blocked by another element (likely an ad)." ;;
         sleep 2000 ;;
         ret Continue
       else if String.eqb (exn_class e) NoSuchElementException then
         print "No more 'Show More' button found." ;;
         ret Break
       else raise e).

Definition button_gone : ShowMore :=
  FindRaises (mkExn NoSuchElementException "no such element").

(** The pagination loop, along the passes the browser has in stock.  The
    result is the number of clicks that went through. *)
Fixpoint click_show_more (passes : list ShowMore) (clicks : nat) : M nat :=
  match passes with
  | [] => show_more_pass button_gone ;; ret clicks
  | o :: rest =>
      c <- show_more_pass o ;;
      match c with
      | Break => ret clicks
      | Continue =>
          click_show_more rest (match o with Clicked => S clicks | _ => clicks end)
      end
  end.

Definition string_of_nat (n : nat) : string := NilEmpty.string_of_uint (Nat.to_uint n).

Section Pipeline.

Variable U : Upstream.

Definition scrape_professor_links (url : string) : M (list ProfessorLink) :=
  print "Starting professor link scraping..." ;;
  browser (SetPageLoadTimeout 300) ;;
  browser (Navigate url) ;;
  answer (driver_get U url) ;;
  try_except
    (browser (WaitClick 10 cookie_xpath) ;; answer (cookie_popup U))
    (fun e => print_args [PStr "No cookie popup found:"; PExn e]) ;;
  try_except
    (browser (WaitClick 5 ad_xpath) ;; answer (ad_popup U))
    (fun _ => print "Ad popup not found or already closed.") ;;
  clicks <- click_show_more (show_more U) 0 ;;
  browser PageSource ;;
  let professors_data := map link_of_card (page_cards U clicks) in
  print ("Scraped " ++ string_of_nat (length professors_data) ++ " professor links.") ;;
  ret professors_data.

(** ** fetch_rating_distributions *)

Definition AttributeError (msg : string) : Exn := mkExn "AttributeError" msg.

(** [isinstance(value, dict) and value.get('__typename') == 'ratingsDistribution'] *)
Definition is_ratings_distribution (value : pyval) : bool :=
  match value with
  | PyDict d =>
      match dict_lookup d "__typename" with
      | Some (PyStr s) => String.eqb s "ratingsDistribution"
      | _ => false
      end
  | _ => false
  end.

(** The scan of [data.items()] with its [break] (lines 98 to 102). *)
Fixpoint scan_items (items : pydict) : option pydict :=
  match items with
  | [] => None
  | (_, value) :: rest =>
      if is_ratings_distribution value then
        match value with
        | PyDict d => Some d
        | _ => None
        end
      else scan_items rest
  end.

Definition http_get (url : string) : M string :=
  emit (EvHttpGet url) ;; lift (requests_get U url).

Definition fetch_rating_distributions (full_link : string) : M (option pydict) :=
  response_text <- http_get full_link ;;
  match soup_find_script U response_text "window.__RELAY_STORE__" with
  | None => ret None
  | Some script_string =>
      match re_search_group1 U "window\.__RELAY_STORE__\s*=\s*({.*?});" script_string with
      | None => raise (AttributeError "'NoneType' object has no attribute 'group'")
      | Some json_str =>
          data <- lift (json_loads U json_str) ;;
          match data with
          | PyDict items => ret (scan_items items)
          | _ => raise (AttributeError "object has no attribute 'items'")
          end
      end
  end.

(** ** test_supabase_connection *)

Definition test_supabase_connection : M bool :=
  try_except
    (response_data <- execute SelectLimit1 ;;
     print "Successfully connected to Supabase!" ;;
     print_args [PStr "Sample data:"; PRows response_data] ;;
     ret true)
    (fun e =>
       print_args [PStr "Error connecting to Supabase:"; PStr (exn_msg e)] ;;
       ret false).

(** ** main *)

Definition BASE_URL : string :=
  "https://www.ratemyprofessors.com/search/professors/971?q=*&did=11".

(** The dict literal of lines 134 to 142. *)
Definition professor_data_of (professor : ProfessorLink) (rating_distributions : pydict)
  : ProfessorRow :=
  {| row_name := name professor;
     row_rmp_link := rmp_link professor;
     rating_1_count := dict_get rating_distributions "r1" (PyInt 0);
     rating_2_count := dict_get rating_distributions "r2" (PyInt 0);
     rating_3_count := dict_get rating_distributions "r3" (PyInt 0);
     rating_4_count := dict_get rating_distributions "r4" (PyInt 0);
     rating_5_count := dict_get rating_distributions "r5" (PyInt 0) |}.

(** The [try] of lines 144 to 157. *)
Definition store_professor (professor : ProfessorLink) (professor_data : ProfessorRow)
  : M unit :=
  try_except
    (existing_data <- execute (SelectByName (name professor)) ;;
     match existing_data with
     | _ :: _ => execute (UpdateByName professor_data (name professor)) ;; ret tt
     | [] => execute (Insert professor_data) ;; ret tt
     end ;;
     print ("Stored ratings for " ++ name professor))
    (fun e =>
       print ("Error storing data for " ++ name professor ++ ": " ++ exn_msg e)).

(** The body of the loop over [professors_data] (lines 130 to 159).  The
    test [if rating_distributions:] holds for a dict with an item; it fails
    for [None] and for an empty dict. *)
Definition process_professor (professor : ProfessorLink) : M unit :=
  print ("Fetching ratings for " ++ name professor) ;;
  rating_distributions <- fetch_rating_distributions (rmp_link professor) ;;
  match rating_distributions with
  | Some (item :: items) =>
      store_professor professor (professor_data_of professor (item :: items))
  | _ => print ("No rating distributions found for " ++ name professor)
  end.

Fixpoint for_each_professor (professors_data : list ProfessorLink) : M unit :=
  match professors_data with
  | [] => ret tt
  | professor :: rest => process_professor professor ;; for_each_professor rest
  end.

Definition main : M unit :=
  connected <- test_supabase_connection ;;
  if negb connected then print "Exiting due to connection error"
  else
    professors_data <- scrape_professor_links BASE_URL ;;
    for_each_professor professors_data ;;
    print "Completed scraping and storing professor data.".

(** The last two lines of the file: [main()] then [driver.quit()]. *)
Definition program : M unit :=
  main ;; browser Quit.

End Pipeline.

(** ** Notions used in the statements *)

(** A world with an empty table, no failure in stock and nothing done yet. *)
Definition idle : World := mkWorld [] [] [].

(** The result of a computation that does not read the world. *)
Definition outcome {A} (m : M A) : Result A := fst (m idle).

(** The world after some more events and nothing else. *)
Definition log (evs : list Event) (w : World) : World :=
  mkWorld (table w) (faults w) (trace w ++ evs)%list.

Definition answered (o : option Exn) : bool :=
  match o with
  | None => true
  | Some _ => false
  end.

(** Every coming store call is answered. *)
Definition reliable (w : World) : bool := forallb answered (faults w).

(** The failure among the next [k] store calls, if there is one. *)
Fixpoint first_fault (k : nat) (fs : list (option Exn)) : option Exn :=
  match k, fs with
  | S k', Some e :: _ => Some e
  | S k', None :: rest => first_fault k' rest
  | _, _ => None
  end.

(** The truth value of [rating_distributions] in [if rating_distributions:]. *)
Definition truthy (rating_distributions : option pydict) : bool :=
  match rating_distributions with
  | Some (_ :: _) => true
  | _ => false
  end.

(** The number of rows of a name. *)
Definition count_name (n : string) (t : list ProfessorRow) : nat :=
  length (filter (name_is n) t).

(** What the select and the write of [store_professor] do to the table when
    both calls are answered. *)
Definition upsert (d : ProfessorRow) (t : list ProfessorRow) : list ProfessorRow :=
  match filter (name_is (row_name d)) t with
  | [] => (t ++ [d])%list
  | _ :: _ => map (fun r => if name_is (row_name d) r then d else r) t
  end.

(** The records the loop of [main] hands to the store, up to the first
    professor whose extraction raises. *)
Fixpoint records_of (U : Upstream) (professors_data : list ProfessorLink) : list ProfessorRow :=
  match professors_data with
  | [] => []
  | professor :: rest =>
      match outcome (fetch_rating_distributions U (rmp_link professor)) with
      | Raise _ => []
      | Ok (Some (item :: items)) =>
          professor_data_of professor (item :: items) :: records_of U rest
      | Ok _ => records_of U rest
      end
  end.

Definition records (U : Upstream) : list ProfessorRow :=
  match outcome (scrape_professor_links U BASE_URL) with
  | Ok professors_data => records_of U professors_data
  | Raise _ => []
  end.

(** The events of a run are of a given kind. *)
Definition emits {A} (P : Event -> Prop) (m : M A) : Prop :=
  forall w, exists evs, trace (snd (m w)) = (trace w ++ evs)%list /\ Forall P evs.

(** A computation that only adds events, the same ones with the same result
    in every world. *)
Definition stateless {A} (m : M A) : Prop :=
  exists r evs, forall w, m w = (r, log evs w).

Definition is_insert (e : Event) : bool :=
  match e with
  | EvStore (Insert _) => true
  | _ => false
  end.

Definition is_store (e : Event) : bool :=
  match e with
  | EvStore _ => true
  | _ => false
  end.

(** The write [store_professor] issues after its select was answered. *)
Definition write_of (n : string) (d : ProfessorRow) (t : list ProfessorRow) : StoreCall :=
  match filter (name_is n) t with
  | [] => Insert d
  | _ :: _ => UpdateByName d n
  end.

(** A computation that inserts only rows of names the table did not hold
    when it began: no name loses a row, and a name gains one at most when it
    had none. *)
Definition inserts_fresh {A} (m : M A) : Prop :=
  forall w, exists evs,
    trace (snd (m w)) = (trace w ++ evs)%list /\
    (forall d, In (EvStore (Insert d)) evs -> count_name (row_name d) (table w) = 0) /\
    (forall n, count_name n (table w) <= count_name n (table (snd (m w)))
               <= Nat.max 1 (count_name n (table w))).

(** A computation that ends with the given result after adding events, the
    same ones in every world, and nothing else. *)
Definition runs {A} (m : M A) (r : Result A) : Prop :=
  exists evs, forall w, m w = (r, log evs w).

(** The events of the scraper: prints, sleeps and browser calls short of
    quitting. *)
Definition is_local (e : Event) : bool :=
  match e with
  | EvPrint _ | EvSleep _ => true
  | EvBrowser Quit => false
  | EvBrowser _ => true
  | _ => false
  end.

(** The URLs requested over HTTP, in order. *)
Definition http_gets (evs : list Event) : list string :=
  flat_map (fun e => match e with EvHttpGet url => [url] | _ => [] end) evs.

(** The passes of the pagination loop by what the handlers make of them. *)
Definition raises_class (o : ShowMore) (class : string) : bool :=
  match o with
  | Clicked => false
  | FindRaises e | ClickRaises e => String.eqb (exn_class e) class
  end.

(** The loop goes on: the click went through, or it was intercepted. *)
Definition continues (o : ShowMore) : bool :=
  match o with
  | Clicked => true
  | _ => raises_class o ElementClickInterceptedException
  end.

(** The loop ends: the button was not found. *)
Definition ends (o : ShowMore) : bool :=
  negb (continues o) && raises_class o NoSuchElementException.

(** The exception no handler of the loop takes. *)
Definition escapes (o : ShowMore) : option Exn :=
  match o with
  | Clicked => None
  | FindRaises e | ClickRaises e =>
      if continues o || ends o then None else Some e
  end.

Definition clicked (o : ShowMore) : bool :=
  match o with
  | Clicked => true
  | _ => false
  end.

Definition clicks_of (passes : list ShowMore) : nat := length (filter clicked passes).

(** The professors whose pass of the loop ends: the scraped list up to the
    first professor whose extraction raises. *)
Fixpoint processed (U : Upstream) (professors_data : list ProfessorLink)
  : list ProfessorLink :=
  match professors_data with
  | [] => []
  | professor :: rest =>
      match outcome (fetch_rating_distributions U (rmp_link professor)) with
      | Raise _ => []
      | Ok _ => professor :: processed U rest
      end
  end.

(** The world in which the loop of [main], started in [w], reaches the
    professor that follows [pre] in the scraped list. *)
Definition world_at (U : Upstream) (w : World) (pre : list ProfessorLink) : World :=
  snd (for_each_professor U pre
         (snd (scrape_professor_links U BASE_URL (snd (test_supabase_connection w))))).

(** The store calls of an upsert that finds the name: the select, then the
    update filtered by the name. *)
Definition select_then_update (d : ProfessorRow) : list Event :=
  [EvStore (SelectByName (row_name d)); EvStore (UpdateByName d (row_name d))].

(** The events with which the pass of a professor with rating data begins
    when the existence query is answered with a row: the print, the request,
    the query, and an update filtered by the name. *)
Definition pass_with_update (professor : ProfessorLink) (rd : pydict) : list Event :=
  [EvPrint [PStr ("Fetching ratings for " ++ name professor)];
   EvHttpGet (rmp_link professor);
   EvStore (SelectByName (name professor));
   EvStore (UpdateByName (professor_data_of professor rd) (name professor))].

(** ** Concrete upstreams *)

Module Scenario.

Fixpoint assoc {B : Type} (key : string) (l : list (string * B)) : option B :=
  match l with
  | [] => None
  | (k, b) :: rest => if String.eqb k key then Some b else assoc key rest
  end.

(** The double quote, and a JSON string literal. *)
Definition dq : string := String (ascii_of_nat 34) EmptyString.
Definition q (s : string) : string := dq ++ s ++ dq.

Definition TimeoutException : Exn := mkExn "TimeoutException" "Message: ".
Definition Intercepted : Exn :=
  mkExn ElementClickInterceptedException "Message: element click intercepted".
Definition ConnectionError : Exn := mkExn "ConnectionError" "Max retries exceeded".
Definition JSONDecodeError : Exn :=
  mkExn "JSONDecodeError"
        "Expecting property name enclosed in double quotes: line 1 column 2 (char 1)".
Definition APIError : Exn := mkExn "APIError" "upstream connect error".

(** An upstream given by tables: the cards per number of clicks, the body per
    URL, the marked script per body, the captured group per script and the
    parsed value per JSON text.  A URL without a body does not answer; a text
    without a value does not parse. *)
Definition site (passes : list ShowMore) (cards : nat -> list Card)
    (bodies scripts groups : list (string * string))
    (values : list (string * pyval)) : Upstream :=
  {| driver_get := fun _ => None;
     cookie_popup := Some TimeoutException;
     ad_popup := None;
     show_more := passes;
     page_cards := cards;
     requests_get := fun url =>
       match assoc url bodies with
       | Some body => Ok body
       | None => Raise ConnectionError
       end;
     soup_find_script := fun markup pattern =>
       if String.eqb pattern "window.__RELAY_STORE__" then assoc markup scripts else None;
     re_search_group1 := fun pattern subject =>
       if String.eqb pattern "window\.__RELAY_STORE__\s*=\s*({.*?});"
       then assoc subject groups else None;
     json_loads := fun text =>
       match assoc text values with
       | Some v => Ok v
       | None => Raise JSONDecodeError
       end |}.

Definition script_of (blob : string) : string := "window.__RELAY_STORE__ = " ++ blob ++ ";".
Definition body_of (script : string) : string :=
  "<html><body><script>" ++ script ++ "</script></body></html>".

(** *** A department with a name listed twice *)

Definition blob_101 : string :=
  "{" ++ q "client:root" ++ ": {" ++ q "__typename" ++ ": " ++ q "Query" ++ "}, "
      ++ q "rd101" ++ ": {" ++ q "__typename" ++ ": " ++ q "ratingsDistribution" ++ ", "
      ++ q "r1" ++ ": 2, " ++ q "r2" ++ ": 0, " ++ q "r3" ++ ": 1, "
      ++ q "r4" ++ ": 4, " ++ q "r5" ++ ": 9, " ++ q "total" ++ ": 16}}".

Definition rd_101 : pydict :=
  [("__typename", PyStr "ratingsDistribution");
   ("r1", PyInt 2); ("r2", PyInt 0); ("r3", PyInt 1);
   ("r4", PyInt 4); ("r5", PyInt 9); ("total", PyInt 16)].

Definition value_101 : pyval :=
  PyDict [("client:root", PyDict [("__typename", PyStr "Query")]);
          ("rd101", PyDict rd_101)].

(** The second page of the same name lacks r3, r4 and r5. *)
Definition blob_103 : string :=
  "{" ++ q "rd103" ++ ": {" ++ q "__typename" ++ ": " ++ q "ratingsDistribution" ++ ", "
      ++ q "r1" ++ ": 7, " ++ q "r2" ++ ": 3}}".

Definition rd_103 : pydict :=
  [("__typename", PyStr "ratingsDistribution"); ("r1", PyInt 7); ("r2", PyInt 3)].

Definition value_103 : pyval := PyDict [("rd103", PyDict rd_103)].

Definition body_102 : string := "<html><body><script>var a = 1;</script></body></html>".

Definition url (path : string) : string := "https://www.ratemyprofessors.com" ++ path.

Definition ada_101 : ProfessorLink := mkLink "Ada Lovelace" (url "/professor/101").
Definition alan_102 : ProfessorLink := mkLink "Alan Turing" (url "/professor/102").
Definition ada_103 : ProfessorLink := mkLink "Ada Lovelace" (url "/professor/103").

Definition department_cards (clicks : nat) : list Card :=
  match clicks with
  | 2 => [mkCard (Some "Ada Lovelace") (Some "/professor/101");
          mkCard (Some "Alan Turing") (Some "/professor/102");
          mkCard (Some "Ada Lovelace") (Some "/professor/103")]
  | _ => [mkCard (Some "Ada Lovelace") (Some "/professor/101")]
  end.

Definition department : Upstream :=
  site [Clicked; ClickRaises Intercepted; Clicked] department_cards
       [(url "/professor/101", body_of (script_of blob_101));
        (url "/professor/102", body_102);
        (url "/professor/103", body_of (script_of blob_103))]
       [(body_of (script_of blob_101), script_of blob_101);
        (body_of (script_of blob_103), script_of blob_103)]
       [(script_of blob_101, blob_101); (script_of blob_103, blob_103)]
       [(blob_101, value_101); (blob_103, value_103)].

(** A table that already holds two rows of one name. *)
Definition stale (n : string) (link : string) : ProfessorRow :=
  mkRow n link (PyInt 0) (PyInt 0) (PyInt 0) (PyInt 0) (PyInt 0).

Definition doubled : World :=
  mkWorld [stale "Ada Lovelace" "old-a"; stale "Grace Hopper" "old-g";
           stale "Ada Lovelace" "old-b"] [] [].

(** *** A card without a name and without a href *)

Definition anonymous_cards (clicks : nat) : list Card :=
  [mkCard (Some "Ada Lovelace") (Some "/professor/101"); mkCard None None].

Definition anonymous : Upstream := site [] anonymous_cards [] [] [] [].

(** *** A profile whose blob is not JSON *)

Definition broken_blob : string := "{oops}".

Definition broken_cards (clicks : nat) : list Card :=
  [mkCard (Some "Ada Lovelace") (Some "/professor/101");
   mkCard (Some "Alan Turing") (Some "/professor/102")].

Definition broken : Upstream :=
  site [] broken_cards
       [(url "/professor/101", body_of (script_of broken_blob));
        (url "/professor/102", body_102)]
       [(body_of (script_of broken_blob), script_of broken_blob)]
       [(script_of broken_blob, broken_blob)]
       [].

(** *** A profile that does not answer *)

Definition unreachable : Upstream :=
  site [] broken_cards [(url "/professor/102", body_102)] [] [] [].

(** *** A store that fails *)

(** The probe is not answered. *)
Definition offline : World := mkWorld [] [Some APIError] [].

(** *** A pagination that breaks *)

Definition StaleElement : Exn :=
  mkExn "StaleElementReferenceException" "Message: stale element reference".

Definition stale_button : Upstream :=
  site [Clicked; ClickRaises Intercepted; ClickRaises StaleElement; Clicked]
       department_cards [] [] [] [].

(** The button is reported absent after one click, whatever would follow. *)
Definition early_end : Upstream :=
  site [Clicked;
        FindRaises (mkExn NoSuchElementException "Message: no such element");
        Clicked; Clicked]
       department_cards [] [] [] [].

(** *** A result page that does not load *)

Definition never_loads : Upstream :=
  {| driver_get := fun _ => Some TimeoutException;
     cookie_popup := None;
     ad_popup := None;
     show_more := [];
     page_cards := department_cards;
     requests_get := fun _ => Raise ConnectionError;
     soup_find_script := fun _ _ => None;
     re_search_group1 := fun _ _ => None;
     json_loads := fun _ => Raise JSONDecodeError |}.

(** *** A result page without cards *)

Definition empty_department : Upstream := site [] (fun _ => []) [] [] [] [].

(** *** Profiles of other shapes *)

(** The marker is assigned something that is not an object literal. *)
Definition null_script : string := "window.__RELAY_STORE__ = null;".

(** No value of the blob is tagged as a distribution. *)
Definition blob_plain : string :=
  "{" ++ q "client:root" ++ ": {" ++ q "__typename" ++ ": " ++ q "Query" ++ "}, "
      ++ q "legacyId" ++ ": 101}".

Definition value_plain : pyval :=
  PyDict [("client:root", PyDict [("__typename", PyStr "Query")]);
          ("legacyId", PyInt 101)].

(** Two values are tagged. *)
Definition blob_two : string :=
  "{" ++ q "a" ++ ": {" ++ q "__typename" ++ ": " ++ q "ratingsDistribution" ++ ", "
      ++ q "r1" ++ ": 1}, "
      ++ q "b" ++ ": {" ++ q "__typename" ++ ": " ++ q "ratingsDistribution" ++ ", "
      ++ q "r1" ++ ": 2}}".

Definition rd_first : pydict := [("__typename", PyStr "ratingsDistribution"); ("r1", PyInt 1)].
Definition rd_second : pydict := [("__typename", PyStr "ratingsDistribution"); ("r1", PyInt 2)].
Definition value_two : pyval := PyDict [("a", PyDict rd_first); ("b", PyDict rd_second)].

Definition shapes : Upstream :=
  site [] broken_cards
       [(url "/professor/101", body_of null_script);
        (url "/professor/102", body_of (script_of blob_plain));
        (url "/professor/103", body_of (script_of blob_two))]
       [(body_of null_script, null_script);
        (body_of (script_of blob_plain), script_of blob_plain);
        (body_of (script_of blob_two), script_of blob_two)]
       [(script_of blob_plain, blob_plain); (script_of blob_two, blob_two)]
       [(blob_plain, value_plain); (blob_two, value_two)].

(** *** A blob with a statement end inside a string *)

Definition blob_motto : string :=
  "{" ++ q "client:root" ++ ": {" ++ q "__typename" ++ ": " ++ q "Query" ++ ", "
      ++ q "motto" ++ ": " ++ q "a};b" ++ "}, "
      ++ q "rd" ++ ": {" ++ q "__typename" ++ ": " ++ q "ratingsDistribution" ++ ", "
      ++ q "r1" ++ ": 1, " ++ q "r2" ++ ": 2, " ++ q "r3" ++ ": 3, "
      ++ q "r4" ++ ": 4, " ++ q "r5" ++ ": 5}}".

(** What the non-greedy pattern captures of it: the text from the first
    brace to the first closing brace that a semicolon follows. *)
Definition captured_motto : string :=
  "{" ++ q "client:root" ++ ": {" ++ q "__typename" ++ ": " ++ q "Query" ++ ", "
      ++ q "motto" ++ ": " ++ dq ++ "a}".

Definition rd_motto : pydict :=
  [("__typename", PyStr "ratingsDistribution");
   ("r1", PyInt 1); ("r2", PyInt 2); ("r3", PyInt 3); ("r4", PyInt 4); ("r5", PyInt 5)].

Definition value_motto : pyval :=
  PyDict [("client:root", PyDict [("__typename", PyStr "Query"); ("motto", PyStr "a};b")]);
          ("rd", PyDict rd_motto)].

Definition UnterminatedString : Exn :=
  mkExn "JSONDecodeError" "Unterminated string starting at: line 1 column 50 (char 49)".

Definition motto : Upstream :=
  {| driver_get := fun _ => None;
     cookie_popup := Some TimeoutException;
     ad_popup := None;
     show_more := [];
     page_cards := broken_cards;
     requests_get := fun address =>
       match assoc address [(url "/professor/101", body_of (script_of blob_motto));
                            (url "/professor/102", body_102)] with
       | Some body => Ok body
       | None => Raise ConnectionError
       end;
     soup_find_script := fun markup pattern =>
       if String.eqb pattern "window.__RELAY_STORE__"
       then assoc markup [(body_of (script_of blob_motto), script_of blob_motto)]
       else None;
     re_search_group1 := fun pattern subject =>
       if String.eqb pattern "window\.__RELAY_STORE__\s*=\s*({.*?});"
       then assoc subject [(script_of blob_motto, captured_motto)]
       else None;
     json_loads := fun text =>
       match assoc text [(blob_motto, value_motto)] with
       | Some v => Ok v
       | None => Raise UnterminatedString
       end |}.

(** *** A script that the unescaped dot of the marker pattern lets through *)

Definition near_script : string := "windowX__RELAY_STORE__ = {};".

Definition near_marker : Upstream :=
  site [] broken_cards
       [(url "/professor/101", body_of near_script);
        (url "/professor/102", body_102)]
       [(body_of near_script, near_script)]
       []
       [].

End Scenario.

(** ** The monad and the trace *)

Lemma log_log (a b : list Event) (w : World) : log b (log a w) = log (a ++ b)%list w.
Proof. unfold log; simpl. now rewrite <- app_assoc. Qed.

Lemma log_nil (w : World) : log [] w = w.
Proof. destruct w; unfold log; simpl. now rewrite app_nil_r. Qed.

Lemma print_run (s : string) (w : World) : print s w = (Ok tt, log [EvPrint [PStr s]] w).
Proof. reflexivity. Qed.

Lemma bind_ok {A B} (m : M A) (k : A -> M B) (w w1 : World) (a : A) :
  m w = (Ok a, w1) -> bind m k w = k a w1.
Proof. intros H; unfold bind; now rewrite H. Qed.

Lemma bind_raise {A B} (m : M A) (k : A -> M B) (w w1 : World) (e : Exn) :
  m w = (Raise e, w1) -> bind m k w = (Raise e, w1).
Proof. intros H; unfold bind; now rewrite H. Qed.

(** *** Stateless computations *)

Lemma stateless_ret {A} (a : A) : stateless (ret a).
Proof. exists (Ok a), []. intros w. now rewrite log_nil. Qed.

Lemma stateless_raise {A} (e : Exn) : stateless (@raise A e).
Proof. exists (Raise e), []. intros w. now rewrite log_nil. Qed.

Lemma stateless_lift {A} (r : Result A) : stateless (lift r).
Proof. exists r, []. intros w. now rewrite log_nil. Qed.

Lemma stateless_emit (e : Event) : stateless (emit e).
Proof. exists (Ok tt), [e]. intros w. reflexivity. Qed.

Lemma stateless_answer (o : option Exn) : stateless (answer o).
Proof. destruct o; [apply stateless_raise | apply stateless_ret]. Qed.

Lemma stateless_bind {A B} (m : M A) (k : A -> M B) :
  stateless m -> (forall a, stateless (k a)) -> stateless (bind m k).
Proof.
  intros (r & evs & Hm) Hk. destruct r as [a | e].
  - destruct (Hk a) as (r' & evs' & Hka).
    exists r', (evs ++ evs')%list. intros w.
    rewrite (bind_ok _ _ _ _ _ (Hm w)), Hka. now rewrite log_log.
  - exists (Raise e), evs. intros w. now rewrite (bind_raise _ _ _ _ _ (Hm w)).
Qed.

Lemma stateless_try {A} (m : M A) (h : Exn -> M A) :
  stateless m -> (forall e, stateless (h e)) -> stateless (try_except m h).
Proof.
  intros (r & evs & Hm) Hh. destruct r as [a | e].
  - exists (Ok a), evs. intros w. unfold try_except. now rewrite Hm.
  - destruct (Hh e) as (r' & evs' & Hhe).
    exists r', (evs ++ evs')%list. intros w. unfold try_except.
    rewrite Hm, Hhe. now rewrite log_log.
Qed.

Ltac stateless_steps :=
  repeat first
    [ apply stateless_ret | apply stateless_raise | apply stateless_lift
    | apply stateless_answer | apply stateless_emit
    | apply stateless_bind; [| intros ?] | apply stateless_try; [| intros ?] ].

Lemma stateless_outcome {A} (m : M A) :
  stateless m -> forall w, exists evs, m w = (outcome m, log evs w).
Proof.
  intros (r & evs & Hm) w. exists evs. unfold outcome.
  rewrite (Hm idle). simpl. apply Hm.
Qed.

(** *** Events of a kind *)

Lemma emits_ret {A} P (a : A) : emits P (ret a).
Proof. intros w. exists []. simpl. now rewrite app_nil_r. Qed.

Lemma emits_raise {A} P (e : Exn) : emits P (@raise A e).
Proof. intros w. exists []. simpl. now rewrite app_nil_r. Qed.

Lemma emits_lift {A} P (r : Result A) : emits P (lift r).
Proof. intros w. exists []. simpl. now rewrite app_nil_r. Qed.

Lemma emits_answer P (o : option Exn) : emits P (answer o).
Proof. destruct o; [apply emits_raise | apply emits_ret]. Qed.

Lemma emits_emit (P : Event -> Prop) (e : Event) : P e -> emits P (emit e).
Proof. intros H w. exists [e]. simpl. auto. Qed.

Lemma emits_execute (P : Event -> Prop) (c : StoreCall) :
  P (EvStore c) -> emits P (execute c).
Proof.
  intros H w. exists [EvStore c]. split; [| auto].
  unfold execute. destruct (faults w) as [| [e |] rest];
    try destruct (store_semantics c (table w)); reflexivity.
Qed.

Lemma emits_bind {A B} P (m : M A) (k : A -> M B) :
  emits P m -> (forall a, emits P (k a)) -> emits P (bind m k).
Proof.
  intros Hm Hk w. destruct (Hm w) as (evs & Ht & HP).
  unfold bind. destruct (m w) as [[a | e] w1]; simpl in *.
  - destruct (Hk a w1) as (evs' & Ht' & HP').
    exists (evs ++ evs')%list. rewrite Ht', Ht, app_assoc. split; [reflexivity |].
    apply Forall_app; auto.
  - exists evs. auto.
Qed.

Lemma emits_try {A} P (m : M A) (h : Exn -> M A) :
  emits P m -> (forall e, emits P (h e)) -> emits P (try_except m h).
Proof.
  intros Hm Hh w. destruct (Hm w) as (evs & Ht & HP).
  unfold try_except. destruct (m w) as [[a | e] w1]; simpl in *.
  - exists evs. auto.
  - destruct (Hh e w1) as (evs' & Ht' & HP').
    exists (evs ++ evs')%list. rewrite Ht', Ht, app_assoc. split; [reflexivity |].
    apply Forall_app; auto.
Qed.

(** Decomposes a computation along its binds; the events that are left are
    checked by [side]. *)
Ltac emits_steps side :=
  repeat first
    [ apply emits_ret | apply emits_raise | apply emits_lift | apply emits_answer
    | apply emits_bind; [| intros ?] | apply emits_try; [| intros ?]
    | apply emits_emit; side | apply emits_execute; side ].

(** ** The functions of the program *)

(** The extractor leaves one event, whatever its result. *)
Lemma fetch_run (U : Upstream) (link : string) (w : World) :
  fetch_rating_distributions U link w
  = (outcome (fetch_rating_distributions U link), log [EvHttpGet link] w).
Proof.
  unfold outcome, fetch_rating_distributions, http_get, bind, emit, lift, ret, raise, log.
  simpl.
  destruct (requests_get U link) as [body | e]; [| reflexivity].
  destruct (soup_find_script U body _) as [script |]; [| reflexivity].
  destruct (re_search_group1 U _ script) as [json_str |]; [| reflexivity].
  destruct (json_loads U json_str) as [[] | e]; reflexivity.
Qed.

Lemma stateless_show_more_pass (o : ShowMore) : stateless (show_more_pass o).
Proof.
  unfold show_more_pass, show_more_attempt, print, sleep, browser.
  apply stateless_try.
  - destruct o; stateless_steps.
  - intros e. destruct (String.eqb _ _); [| destruct (String.eqb _ _)]; stateless_steps.
Qed.

Lemma stateless_click_show_more (passes : list ShowMore) :
  forall clicks, stateless (click_show_more passes clicks).
Proof.
  induction passes as [| o rest IH]; intros clicks; simpl.
  - apply stateless_bind; [apply stateless_show_more_pass | intros; apply stateless_ret].
  - apply stateless_bind; [apply stateless_show_more_pass |].
    intros [|]; [apply IH | apply stateless_ret].
Qed.

Lemma stateless_scrape (U : Upstream) (url : string) :
  stateless (scrape_professor_links U url).
Proof.
  unfold scrape_professor_links, print, print_args, browser.
  repeat first
    [ apply stateless_click_show_more
    | apply stateless_ret | apply stateless_answer | apply stateless_emit
    | apply stateless_bind; [| intros ?] | apply stateless_try; [| intros ?] ].
Qed.

(** The scraper returns the cards of the page, each turned into a link. *)
Lemma scrape_result (U : Upstream) (url : string) (w w' : World) (l : list ProfessorLink) :
  scrape_professor_links U url w = (Ok l, w') ->
  exists clicks, l = map link_of_card (page_cards U clicks).
Proof.
  unfold scrape_professor_links.
  set (tail := fun clicks : nat => bind (browser PageSource) _).
  intros H.
  repeat match type of H with
  | bind ?m ?k ?w = _ =>
      unfold bind at 1 in H; destruct (m w) as [[? | ?] ?]; [| discriminate H]
  end.
  match type of H with tail ?c _ = _ => exists c end.
  unfold tail, bind, browser, print, emit, ret in H. simpl in H.
  now inversion H.
Qed.

Lemma probe_refused (w : World) (e : Exn) (rest : list (option Exn)) :
  faults w = Some e :: rest ->
  test_supabase_connection w
  = (Ok false,
     mkWorld (table w) rest
       (trace w ++ [EvStore SelectLimit1;
                    EvPrint [PStr "Error connecting to Supabase:"; PStr (exn_msg e)]])%list).
Proof.
  intros H.
  unfold test_supabase_connection, try_except, bind, execute, print_args, emit, ret.
  rewrite H. simpl. now rewrite <- app_assoc.
Qed.

Lemma probe_answered (w : World) :
  hd None (faults w) = None ->
  test_supabase_connection w
  = (Ok true,
     mkWorld (table w) (tl (faults w))
       (trace w ++ [EvStore SelectLimit1;
                    EvPrint [PStr "Successfully connected to Supabase!"];
                    EvPrint [PStr "Sample data:"; PRows (firstn 1 (table w))]])%list).
Proof.
  intros H.
  unfold test_supabase_connection, try_except, bind, execute, print, print_args, emit, ret.
  destruct (faults w) as [| [e |] rest]; simpl in *; try discriminate;
    now rewrite <- !app_assoc.
Qed.

(** *** The upsert, by the answers of the store *)

Lemma store_professor_answered (p : ProfessorLink) (d : ProfessorRow) (w : World) :
  first_fault 2 (faults w) = None ->
  store_professor p d w
  = (Ok tt,
     mkWorld (snd (store_semantics (write_of (name p) d (table w)) (table w)))
       (tl (tl (faults w)))
       (trace w ++ [EvStore (SelectByName (name p));
                    EvStore (write_of (name p) d (table w));
                    EvPrint [PStr ("Stored ratings for " ++ name p)]])%list).
Proof.
  intros H.
  unfold store_professor, try_except, bind, execute, print, emit, ret, write_of.
  destruct (faults w) as [| [e |] [| [e2 |] rest]]; simpl in *; try discriminate;
    destruct (filter (name_is (name p)) (table w)); simpl;
    now rewrite <- !app_assoc.
Qed.

Lemma store_professor_select_refused (p : ProfessorLink) (d : ProfessorRow) (w : World)
    (e : Exn) (rest : list (option Exn)) :
  faults w = Some e :: rest ->
  store_professor p d w
  = (Ok tt,
     mkWorld (table w) rest
       (trace w ++ [EvStore (SelectByName (name p));
                    EvPrint [PStr ("Error storing data for " ++ name p ++ ": "
                                   ++ exn_msg e)]])%list).
Proof.
  intros H.
  unfold store_professor, try_except, bind, execute, print, emit, ret.
  rewrite H. simpl. now rewrite <- !app_assoc.
Qed.

Lemma store_professor_write_refused (p : ProfessorLink) (d : ProfessorRow) (w : World)
    (e : Exn) (rest : list (option Exn)) :
  faults w = None :: Some e :: rest ->
  store_professor p d w
  = (Ok tt,
     mkWorld (table w) rest
       (trace w ++ [EvStore (SelectByName (name p));
                    EvStore (write_of (name p) d (table w));
                    EvPrint [PStr ("Error storing data for " ++ name p ++ ": "
                                   ++ exn_msg e)]])%list).
Proof.
  intros H.
  unfold store_professor, try_except, bind, execute, print, emit, ret, write_of.
  rewrite H. simpl.
  destruct (filter (name_is (name p)) (table w)); simpl; now rewrite <- !app_assoc.
Qed.

(** The three cases above are all there is. *)
Lemma faults_cases (fs : list (option Exn)) :
  first_fault 2 fs = None \/
  (exists e rest, fs = Some e :: rest) \/
  (exists e rest, fs = None :: Some e :: rest).
Proof.
  destruct fs as [| [e |] [| [e2 |] rest]]; simpl; eauto.
Qed.

Lemma first_fault_2 (fs : list (option Exn)) (e : Exn) :
  first_fault 2 fs = Some e ->
  (exists rest, fs = Some e :: rest) \/ (exists rest, fs = None :: Some e :: rest).
Proof.
  destruct fs as [| [e1 |] [| [e2 |] rest]]; simpl; intros H; inversion H; eauto.
Qed.

(** The loop body, by the result of the extractor. *)
Lemma process_professor_raises (U : Upstream) (p : ProfessorLink) (w : World) (e : Exn) :
  outcome (fetch_rating_distributions U (rmp_link p)) = Raise e ->
  process_professor U p w
  = (Raise e,
     log [EvPrint [PStr ("Fetching ratings for " ++ name p)]; EvHttpGet (rmp_link p)] w).
Proof.
  intros H. unfold process_professor.
  rewrite (bind_ok _ _ _ _ _ (print_run _ w)).
  erewrite bind_raise; [| rewrite fetch_run, H; reflexivity].
  now rewrite log_log.
Qed.

Lemma process_professor_found (U : Upstream) (p : ProfessorLink) (w : World)
    (item : string * pyval) (items : pydict) :
  outcome (fetch_rating_distributions U (rmp_link p)) = Ok (Some (item :: items)) ->
  process_professor U p w
  = store_professor p (professor_data_of p (item :: items))
      (log [EvPrint [PStr ("Fetching ratings for " ++ name p)]; EvHttpGet (rmp_link p)] w).
Proof.
  intros H. unfold process_professor.
  rewrite (bind_ok _ _ _ _ _ (print_run _ w)).
  erewrite bind_ok; [| rewrite fetch_run, H; reflexivity].
  now rewrite log_log.
Qed.

Lemma process_professor_no_data (U : Upstream) (p : ProfessorLink) (w : World)
    (rd : option pydict) :
  outcome (fetch_rating_distributions U (rmp_link p)) = Ok rd ->
  truthy rd = false ->
  process_professor U p w
  = (Ok tt,
     log [EvPrint [PStr ("Fetching ratings for " ++ name p)]; EvHttpGet (rmp_link p);
          EvPrint [PStr ("No rating distributions found for " ++ name p)]] w).
Proof.
  intros H Hrd. unfold process_professor.
  rewrite (bind_ok _ _ _ _ _ (print_run _ w)).
  erewrite bind_ok; [| rewrite fetch_run, H; reflexivity].
  destruct rd as [[| item items] |]; try discriminate;
    rewrite print_run, !log_log; reflexivity.
Qed.

(** The scan returns the first tagged dict; a tagged dict has an item. *)
Lemma scan_items_first (before after : pydict) (key : string) (rd : pydict) :
  (forall item, In item before -> is_ratings_distribution (snd item) = false) ->
  is_ratings_distribution (PyDict rd) = true ->
  scan_items (before ++ (key, PyDict rd) :: after)%list = Some rd.
Proof.
  intros Hb Hrd. induction before as [| [k v] before IH]; simpl.
  - simpl in Hrd. now rewrite Hrd.
  - pose proof (Hb (k, v) (or_introl eq_refl)) as Hkv. simpl in Hkv. rewrite Hkv.
    apply IH. intros item Hin. apply Hb. now right.
Qed.

Lemma tagged_dict_has_item (rd : pydict) :
  is_ratings_distribution (PyDict rd) = true -> exists item items, rd = item :: items.
Proof. destruct rd; [discriminate | eauto]. Qed.

Lemma scan_items_found (items rd : pydict) :
  scan_items items = Some rd -> is_ratings_distribution (PyDict rd) = true.
Proof.
  induction items as [| [k v] items IH]; simpl; [discriminate |].
  destruct (is_ratings_distribution v) eqn:Hv; [| exact IH].
  destruct v; try discriminate. intros H; inversion H; subst. exact Hv.
Qed.

Lemma fetch_result_found (U : Upstream) (link : string) (rd : pydict) :
  outcome (fetch_rating_distributions U link) = Ok (Some rd) ->
  exists item items, rd = item :: items.
Proof.
  unfold outcome, fetch_rating_distributions, http_get, bind, emit, lift, ret, raise.
  simpl.
  destruct (requests_get U link) as [body | e]; [| discriminate].
  destruct (soup_find_script U body _) as [script |]; [| discriminate].
  destruct (re_search_group1 U _ script) as [json_str |]; [| discriminate].
  destruct (json_loads U json_str) as [[] | e]; try discriminate.
  simpl. intros H. inversion H as [Hs].
  apply tagged_dict_has_item. now apply scan_items_found with (items := items).
Qed.

Lemma written_row_is_there (n : string) (d : ProfessorRow) (t : list ProfessorRow) :
  In d (snd (store_semantics (write_of n d t) t)).
Proof.
  unfold write_of. destruct (filter (name_is n) t) as [| r rows] eqn:Hf; simpl.
  - apply in_or_app. right. now left.
  - assert (Hr : In r (filter (name_is n) t)) by (rewrite Hf; now left).
    apply filter_In in Hr. destruct Hr as [Hin Hname].
    apply in_map_iff. exists r. now rewrite Hname.
Qed.

Lemma write_of_cases (n : string) (d : ProfessorRow) (t : list ProfessorRow) :
  write_of n d t = Insert d \/ write_of n d t = UpdateByName d n.
Proof. unfold write_of. destruct (filter (name_is n) t); auto. Qed.

Lemma store_professor_returns (p : ProfessorLink) (d : ProfessorRow) (w : World) :
  exists w', store_professor p d w = (Ok tt, w').
Proof.
  destruct (faults_cases (faults w)) as [H | [(e & rest & H) | (e & rest & H)]].
  - rewrite (store_professor_answered p d w H). eauto.
  - rewrite (store_professor_select_refused p d w e rest H). eauto.
  - rewrite (store_professor_write_refused p d w e rest H). eauto.
Qed.

(** *** Events of the program *)

Lemma emits_click_show_more (P : Event -> Prop) (passes : list ShowMore) :
  (forall e, is_store e = false -> e <> EvBrowser Quit -> P e) ->
  forall clicks, emits P (click_show_more passes clicks).
Proof.
  intros HP.
  assert (Hpass : forall o, emits P (show_more_pass o)).
  { intros o. unfold show_more_pass, show_more_attempt, print, sleep, browser.
    apply emits_try.
    - destruct o; emits_steps ltac:(apply HP; [reflexivity | discriminate]).
    - intros e. destruct (String.eqb _ _); [| destruct (String.eqb _ _)];
        emits_steps ltac:(apply HP; [reflexivity | discriminate]). }
  induction passes as [| o rest IH]; intros clicks; simpl.
  - apply emits_bind; [apply Hpass | intros; apply emits_ret].
  - apply emits_bind; [apply Hpass |].
    intros [|]; [apply IH | apply emits_ret].
Qed.

Lemma emits_scrape (P : Event -> Prop) (U : Upstream) (url : string) :
  (forall e, is_store e = false -> e <> EvBrowser Quit -> P e) ->
  emits P (scrape_professor_links U url).
Proof.
  intros HP. unfold scrape_professor_links, print, print_args, browser.
  repeat first
    [ apply emits_click_show_more; exact HP
    | apply emits_ret | apply emits_answer
    | apply emits_bind; [| intros ?] | apply emits_try; [| intros ?]
    | apply emits_emit; apply HP; [reflexivity | discriminate] ].
Qed.

Lemma emits_fetch (P : Event -> Prop) (U : Upstream) (link : string) :
  P (EvHttpGet link) -> emits P (fetch_rating_distributions U link).
Proof.
  intros HP w. exists [EvHttpGet link]. rewrite fetch_run. simpl. auto.
Qed.

Lemma emits_store_professor (P : Event -> Prop) (p : ProfessorLink) (d : ProfessorRow) :
  (forall e, e <> EvBrowser Quit -> P e) -> emits P (store_professor p d).
Proof.
  intros HP. unfold store_professor, print.
  apply emits_try; [| intros e; apply emits_emit; apply HP; discriminate].
  apply emits_bind; [apply emits_execute; apply HP; discriminate |].
  intros existing_data. apply emits_bind.
  - destruct existing_data; emits_steps ltac:(apply HP; discriminate).
  - intros _. apply emits_emit. apply HP. discriminate.
Qed.

Lemma emits_process_professor (P : Event -> Prop) (U : Upstream) (p : ProfessorLink) :
  (forall e, e <> EvBrowser Quit -> P e) -> emits P (process_professor U p).
Proof.
  intros HP. unfold process_professor, print.
  apply emits_bind; [apply emits_emit; apply HP; discriminate | intros _].
  apply emits_bind; [apply emits_fetch; apply HP; discriminate |].
  intros [[| item items] |];
    try (apply emits_emit; apply HP; discriminate).
  now apply emits_store_professor.
Qed.

Lemma emits_for_each_professor (P : Event -> Prop) (U : Upstream)
    (professors_data : list ProfessorLink) :
  (forall e, e <> EvBrowser Quit -> P e) -> emits P (for_each_professor U professors_data).
Proof.
  intros HP. induction professors_data as [| p rest IH]; simpl.
  - apply emits_ret.
  - apply emits_bind; [now apply emits_process_professor | intros _; exact IH].
Qed.

Lemma emits_main (P : Event -> Prop) (U : Upstream) :
  (forall e, e <> EvBrowser Quit -> P e) -> emits P (main U).
Proof.
  intros HP. unfold main, test_supabase_connection, print, print_args.
  apply emits_bind; [emits_steps ltac:(apply HP; discriminate) |].
  intros [|]; simpl; [| apply emits_emit; apply HP; discriminate].
  apply emits_bind; [apply emits_scrape; intros; now apply HP |].
  intros l. apply emits_bind; [now apply emits_for_each_professor |].
  intros _. apply emits_emit; apply HP; discriminate.
Qed.


(** ** The table *)

Lemma count_name_app (n : string) (t1 t2 : list ProfessorRow) :
  count_name n (t1 ++ t2)%list = count_name n t1 + count_name n t2.
Proof. unfold count_name. now rewrite filter_app, length_app. Qed.

(** An update by name keeps the names, so it keeps the count of every name. *)
Lemma count_name_update (n m : string) (d : ProfessorRow) (t : list ProfessorRow) :
  row_name d = m ->
  count_name n (map (fun r => if name_is m r then d else r) t) = count_name n t.
Proof.
  intros Hd. unfold count_name. induction t as [| r t IH]; simpl; [reflexivity |].
  assert (Hsame : name_is n (if name_is m r then d else r) = name_is n r).
  { destruct (name_is m r) eqn:Hr; [| reflexivity].
    unfold name_is in *. apply String.eqb_eq in Hr. now rewrite Hd, Hr. }
  rewrite Hsame. destruct (name_is n r); simpl; now rewrite IH.
Qed.

Lemma upsert_is_store_semantics (d : ProfessorRow) (t : list ProfessorRow) :
  snd (store_semantics (write_of (row_name d) d t) t) = upsert d t.
Proof. unfold write_of, upsert. now destruct (filter (name_is (row_name d)) t). Qed.

Lemma count_name_upsert (n : string) (d : ProfessorRow) (t : list ProfessorRow) :
  count_name n (upsert d t)
  = if String.eqb (row_name d) n then Nat.max 1 (count_name n t) else count_name n t.
Proof.
  unfold upsert.
  destruct (filter (name_is (row_name d)) t) as [| r rows] eqn:Hf.
  - rewrite count_name_app.
    replace (count_name n [d]) with (if String.eqb (row_name d) n then 1 else 0)
      by (unfold count_name, name_is; simpl; now destruct (String.eqb (row_name d) n)).
    destruct (String.eqb (row_name d) n) eqn:Hn; simpl; [| lia].
    apply String.eqb_eq in Hn. subst n. unfold count_name. rewrite Hf. reflexivity.
  - rewrite count_name_update by reflexivity.
    destruct (String.eqb (row_name d) n) eqn:Hn; [| reflexivity].
    apply String.eqb_eq in Hn. subst n. unfold count_name. rewrite Hf. simpl. lia.
Qed.

Lemma count_name_fold (n : string) (ds : list ProfessorRow) :
  forall t,
    count_name n (fold_left (fun t d => upsert d t) ds t)
    = if existsb (fun d => String.eqb (row_name d) n) ds
      then Nat.max 1 (count_name n t) else count_name n t.
Proof.
  induction ds as [| d ds IH]; intros t; cbn [fold_left existsb]; [reflexivity |].
  rewrite IH, count_name_upsert.
  destruct (String.eqb (row_name d) n), (existsb _ ds); cbn [orb]; lia.
Qed.


(** An upsert of another name leaves the rows of a name as they are. *)
Lemma upsert_other (n : string) (d r : ProfessorRow) (t : list ProfessorRow) :
  row_name d <> n -> row_name r = n -> (In r (upsert d t) <-> In r t).
Proof.
  intros Hd Hr. unfold upsert.
  destruct (filter (name_is (row_name d)) t) as [| r0 rows].
  - rewrite in_app_iff. simpl. split; [| tauto].
    intros [H | [H | []]]; [exact H |]. subst r. contradiction.
  - rewrite in_map_iff. split.
    + intros (r1 & Hr1 & Hin). destruct (name_is (row_name d) r1).
      * subst r. contradiction.
      * now subst r1.
    + intros Hin. exists r. split; [| exact Hin].
      destruct (name_is (row_name d) r) eqn:H1; [| reflexivity].
      unfold name_is in H1. apply String.eqb_eq in H1. congruence.
Qed.

Lemma fold_upsert_other (n : string) (r : ProfessorRow) (ds : list ProfessorRow) :
  (forall d, In d ds -> row_name d <> n) -> row_name r = n ->
  forall t, In r (fold_left (fun t d => upsert d t) ds t) <-> In r t.
Proof.
  intros Hds Hr. induction ds as [| d ds IH]; intros t; simpl; [tauto |].
  rewrite IH by (intros d' Hd'; apply Hds; now right).
  apply upsert_other with (n := n); [apply Hds; now left | exact Hr].
Qed.

(** *** The records of a run *)

Lemma records_of_names (U : Upstream) (l : list ProfessorLink) (d : ProfessorRow) :
  In d (records_of U l) -> exists q, In q l /\ row_name d = name q.
Proof.
  induction l as [| p l IH]; simpl; [intros [] |].
  destruct (outcome (fetch_rating_distributions U (rmp_link p)))
    as [[[| item items] |] | e]; simpl.
  - intros H. destruct (IH H) as (q & Hq & Hn). eauto.
  - intros [<- | H]; [exists p; auto |]. destruct (IH H) as (q & Hq & Hn). eauto.
  - intros H. destruct (IH H) as (q & Hq & Hn). eauto.
  - intros [].
Qed.

Lemma records_of_app (U : Upstream) (pre l : list ProfessorLink) :
  (forall q, In q pre ->
     exists rd, outcome (fetch_rating_distributions U (rmp_link q)) = Ok rd) ->
  records_of U (pre ++ l)%list = (records_of U pre ++ records_of U l)%list.
Proof.
  induction pre as [| p pre IH]; intros H; simpl; [reflexivity |].
  destruct (H p (or_introl eq_refl)) as (rd & ->).
  rewrite IH by (intros q Hq; apply H; now right).
  now destruct rd as [[| item items] |].
Qed.

(** *** A run with a store that answers *)

Lemma reliable_first_fault (k : nat) (fs : list (option Exn)) :
  forallb answered fs = true -> first_fault k fs = None.
Proof.
  revert fs. induction k as [| k IH]; intros [| [e |] fs]; simpl; try reflexivity.
  - discriminate.
  - apply IH.
Qed.

Lemma reliable_tl (fs : list (option Exn)) :
  forallb answered fs = true -> forallb answered (tl fs) = true.
Proof. destruct fs as [| o fs]; simpl; [reflexivity |]. now intros H%andb_prop. Qed.

Lemma for_each_reliable (U : Upstream) (l : list ProfessorLink) :
  forall w, reliable w = true ->
    table (snd (for_each_professor U l w))
    = fold_left (fun t d => upsert d t) (records_of U l) (table w) /\
    reliable (snd (for_each_professor U l w)) = true.
Proof.
  induction l as [| p l IH]; intros w Hw; simpl; [auto |].
  unfold bind.
  destruct (outcome (fetch_rating_distributions U (rmp_link p)))
    as [[[| item items] |] | e] eqn:Hp.
  - rewrite (process_professor_no_data U p w _ Hp eq_refl). now apply (IH (log _ w)).
  - rewrite (process_professor_found U p w item items Hp).
    rewrite store_professor_answered by (now apply reliable_first_fault).
    set (d := professor_data_of p (item :: items)).
    replace (name p) with (row_name d) by reflexivity.
    rewrite upsert_is_store_semantics.
    match goal with |- context [for_each_professor U l ?w1] =>
      destruct (IH w1) as [Ht Hr] end.
    { unfold reliable. simpl. now do 2 apply reliable_tl. }
    rewrite Ht. simpl. auto.
  - rewrite (process_professor_no_data U p w _ Hp eq_refl). now apply (IH (log _ w)).
  - rewrite (process_professor_raises U p w e Hp). simpl. auto.
Qed.

Lemma main_reliable (U : Upstream) (w : World) :
  reliable w = true ->
  table (snd (main U w)) = fold_left (fun t d => upsert d t) (records U) (table w) /\
  reliable (snd (main U w)) = true.
Proof.
  intros Hw. unfold main.
  assert (Hhd : hd None (faults w) = None).
  { unfold reliable in Hw. destruct (faults w) as [| [e |] fs]; simpl in *; auto.
    discriminate. }
  rewrite (bind_ok _ _ _ _ _ (probe_answered w Hhd)). simpl.
  set (w1 := mkWorld (table w) (tl (faults w)) _).
  assert (Hw1 : reliable w1 = true) by (unfold reliable; simpl; now apply reliable_tl).
  destruct (stateless_outcome _ (stateless_scrape U BASE_URL) w1) as (evs & Hs).
  unfold records.
  destruct (outcome (scrape_professor_links U BASE_URL)) as [l | e].
  - rewrite (bind_ok _ _ _ _ _ Hs).
    destruct (for_each_reliable U l (log evs w1) Hw1) as [Ht Hr].
    unfold bind. destruct (for_each_professor U l (log evs w1)) as [[[] | e] w2];
      simpl in *; auto.
  - rewrite (bind_raise _ _ _ _ _ Hs). simpl. auto.
Qed.

(** *** Inserts are for names the table does not hold *)

Lemma inserts_fresh_bind {A B} (m : M A) (k : A -> M B) :
  inserts_fresh m -> (forall a, inserts_fresh (k a)) -> inserts_fresh (bind m k).
Proof.
  intros Hm Hk w. destruct (Hm w) as (evs & Ht & Hi & Hc).
  unfold bind. destruct (m w) as [[a | e] w1]; cbn [snd] in *.
  - destruct (Hk a w1) as (evs' & Ht' & Hi' & Hc').
    exists (evs ++ evs')%list. split; [now rewrite Ht', Ht, app_assoc |]. split.
    + intros d Hin. apply in_app_or in Hin. destruct Hin as [Hin | Hin].
      * now apply Hi.
      * specialize (Hi' d Hin). specialize (Hc (row_name d)). lia.
    + intros n. specialize (Hc n). specialize (Hc' n). lia.
  - exists evs. auto.
Qed.

Lemma inserts_fresh_stateless {A} (m : M A) :
  stateless m -> emits (fun e => is_insert e = false) m -> inserts_fresh m.
Proof.
  intros (r & evs & Hm) He w. destruct (He w) as (evs' & Ht & Hall).
  exists evs'. split; [exact Ht |]. split.
  - intros d Hin. rewrite Forall_forall in Hall. specialize (Hall _ Hin). discriminate.
  - intros n. rewrite Hm. cbn [snd log table]. lia.
Qed.

Lemma inserts_fresh_emit (e : Event) : is_insert e = false -> inserts_fresh (emit e).
Proof.
  intros H. apply inserts_fresh_stateless; [apply stateless_emit | now apply emits_emit].
Qed.

Lemma inserts_fresh_probe : inserts_fresh test_supabase_connection.
Proof.
  intros w. destruct (faults w) as [| [e |] rest] eqn:Hf.
  - rewrite probe_answered by now rewrite Hf. eexists. split; [reflexivity |].
    split; [| intros; cbn [snd table]; lia]. simpl. intuition discriminate.
  - rewrite (probe_refused w e rest Hf). eexists. split; [reflexivity |].
    split; [| intros; cbn [snd table]; lia]. simpl. intuition discriminate.
  - rewrite probe_answered by now rewrite Hf. eexists. split; [reflexivity |].
    split; [| intros; cbn [snd table]; lia]. simpl. intuition discriminate.
Qed.

Lemma inserts_fresh_store_professor (p : ProfessorLink) (d : ProfessorRow) :
  row_name d = name p -> inserts_fresh (store_professor p d).
Proof.
  intros Hd w.
  destruct (faults_cases (faults w)) as [H | [(e & rest & H) | (e & rest & H)]].
  - rewrite (store_professor_answered p d w H). eexists. split; [reflexivity |].
    rewrite <- Hd, upsert_is_store_semantics. cbn [snd table trace]. split.
    + intros d' [Hin | [Hin | [Hin | []]]]; try discriminate.
      unfold write_of in Hin. unfold count_name.
      destruct (filter (name_is (row_name d)) (table w)) eqn:Hf; [| discriminate].
      inversion Hin; subst d'. now rewrite Hf.
    + intros n. rewrite count_name_upsert.
      destruct (String.eqb (row_name d) n); lia.
  - rewrite (store_professor_select_refused p d w e rest H). eexists.
    split; [reflexivity |]. split; [| intros; cbn [snd table]; lia]. simpl. intuition discriminate.
  - rewrite (store_professor_write_refused p d w e rest H). eexists.
    split; [reflexivity |]. split; [| intros; cbn [snd table]; lia]. simpl.
    intros d' [Hin | [Hin | [Hin | []]]]; try discriminate.
    unfold write_of in Hin. unfold count_name. rewrite <- Hd in *.
    destruct (filter (name_is (row_name d)) (table w)) eqn:Hf; [| discriminate].
    inversion Hin; subst d'. now rewrite Hf.
Qed.

Lemma inserts_fresh_process_professor (U : Upstream) (p : ProfessorLink) :
  inserts_fresh (process_professor U p).
Proof.
  unfold process_professor, print.
  apply inserts_fresh_bind; [now apply inserts_fresh_emit | intros _].
  apply inserts_fresh_bind.
  - apply inserts_fresh_stateless.
    + exists (outcome (fetch_rating_distributions U (rmp_link p))), [EvHttpGet (rmp_link p)].
      intros w. apply fetch_run.
    + now apply emits_fetch.
  - intros [[| item items] |]; try now apply inserts_fresh_emit.
    now apply inserts_fresh_store_professor.
Qed.

Lemma inserts_fresh_for_each_professor (U : Upstream) (l : list ProfessorLink) :
  inserts_fresh (for_each_professor U l).
Proof.
  induction l as [| p l IH]; simpl.
  - apply inserts_fresh_stateless; [apply stateless_ret | apply emits_ret].
  - apply inserts_fresh_bind; [apply inserts_fresh_process_professor | intros _; exact IH].
Qed.

Lemma inserts_fresh_main (U : Upstream) : inserts_fresh (main U).
Proof.
  unfold main, print.
  apply inserts_fresh_bind; [apply inserts_fresh_probe |].
  intros [|]; simpl; [| now apply inserts_fresh_emit].
  apply inserts_fresh_bind.
  - apply inserts_fresh_stateless; [apply stateless_scrape |].
    apply emits_scrape. intros [] Hs _; try reflexivity. discriminate.
  - intros l. apply inserts_fresh_bind; [apply inserts_fresh_for_each_professor |].
    intros _. now apply inserts_fresh_emit.
Qed.

(** *** The loop goes on *)

Lemma store_professor_events (p : ProfessorLink) (d : ProfessorRow) (w : World) :
  exists w' evs, store_professor p d w = (Ok tt, w') /\ trace w' = (trace w ++ evs)%list.
Proof.
  destruct (store_professor_returns p d w) as (w' & Hw').
  destruct (emits_store_professor (fun _ => True) p d (fun _ _ => I) w) as (evs & Ht & _).
  rewrite Hw' in Ht. simpl in Ht. eauto.
Qed.

Lemma process_professor_attempts (U : Upstream) (p : ProfessorLink) (w : World)
    (rd : option pydict) :
  outcome (fetch_rating_distributions U (rmp_link p)) = Ok rd ->
  exists w' evs,
    process_professor U p w = (Ok tt, w') /\
    trace w' = (trace w ++ evs)%list /\
    In (EvHttpGet (rmp_link p)) evs.
Proof.
  intros Hrd. destruct (truthy rd) eqn:Ht.
  - destruct rd as [[| item items] |]; try discriminate.
    rewrite (process_professor_found U p w item items Hrd).
    destruct (store_professor_events p (professor_data_of p (item :: items))
                (log [EvPrint [PStr ("Fetching ratings for " ++ name p)];
                      EvHttpGet (rmp_link p)] w)) as (w' & evs & Hw' & Htr).
    exists w', ([EvPrint [PStr ("Fetching ratings for " ++ name p)];
                 EvHttpGet (rmp_link p)] ++ evs)%list.
    split; [exact Hw' |]. split.
    + rewrite Htr. simpl. now rewrite <- app_assoc.
    + simpl. auto.
  - rewrite (process_professor_no_data U p w rd Hrd Ht).
    eexists. eexists. split; [reflexivity |]. split; [reflexivity |]. simpl. auto.
Qed.

Lemma for_each_professor_attempts (U : Upstream) (l : list ProfessorLink) :
  (forall p, In p l ->
     exists rd, outcome (fetch_rating_distributions U (rmp_link p)) = Ok rd) ->
  forall w, exists w' evs,
    for_each_professor U l w = (Ok tt, w') /\
    trace w' = (trace w ++ evs)%list /\
    forall p, In p l -> In (EvHttpGet (rmp_link p)) evs.
Proof.
  induction l as [| p l IH]; intros Hl w.
  - exists w, []. split; [reflexivity |]. split; [now rewrite app_nil_r | intros ? []].
  - destruct (Hl p (or_introl eq_refl)) as (rd & Hrd).
    destruct (process_professor_attempts U p w rd Hrd) as (wp & evs1 & Hp & Ht1 & Hin1).
    destruct (IH (fun q Hq => Hl q (or_intror Hq)) wp) as (w' & evs2 & Hrest & Ht2 & Hin2).
    exists w', (evs1 ++ evs2)%list. split; [| split].
    + simpl. now rewrite (bind_ok _ _ _ _ _ Hp).
    + now rewrite Ht2, Ht1, app_assoc.
    + intros q [<- | Hq]; apply in_or_app; [left | right]; auto.
Qed.

(** ** Further properties of the program *)

(** *** Computations with a known result *)

Lemma runs_ret {A} (a : A) : runs (ret a) (Ok a).
Proof. exists []. intros w. now rewrite log_nil. Qed.

Lemma runs_emit (e : Event) : runs (emit e) (Ok tt).
Proof. exists [e]. reflexivity. Qed.

Lemma runs_bind {A B} (m : M A) (k : A -> M B) (a : A) (r : Result B) :
  runs m (Ok a) -> runs (k a) r -> runs (bind m k) r.
Proof.
  intros (evs & Hm) (evs' & Hk). exists (evs ++ evs')%list. intros w.
  now rewrite (bind_ok _ _ _ _ _ (Hm w)), Hk, log_log.
Qed.

Lemma runs_bind_raise {A B} (m : M A) (k : A -> M B) (e : Exn) :
  runs m (Raise e) -> runs (bind m k) (Raise e).
Proof.
  intros (evs & Hm). exists evs. intros w. now rewrite (bind_raise _ _ _ _ _ (Hm w)).
Qed.

Lemma runs_outcome {A} (m : M A) (r : Result A) : runs m r -> outcome m = r.
Proof. intros (evs & Hm). unfold outcome. now rewrite Hm. Qed.

Lemma stateless_runs {A} (m : M A) : stateless m -> runs m (outcome m).
Proof.
  intros (r & evs & Hm). exists evs. intros w.
  unfold outcome. rewrite (Hm idle). simpl. apply Hm.
Qed.

(** An overlay that is clicked or not: the [try] returns either way. *)
Lemma runs_overlay (seconds : nat) (xpath : string) (o : option Exn)
    (handler : Exn -> M unit) :
  (forall e, runs (handler e) (Ok tt)) ->
  runs (try_except (bind (browser (WaitClick seconds xpath)) (fun _ => answer o)) handler)
       (Ok tt).
Proof.
  intros Hh. destruct o as [e |].
  - destruct (Hh e) as (evs & He).
    exists ([EvBrowser (WaitClick seconds xpath)] ++ evs)%list. intros w.
    unfold try_except, bind, browser, emit, answer, raise. simpl.
    rewrite He. unfold log. simpl. now rewrite <- app_assoc.
  - exists [EvBrowser (WaitClick seconds xpath)]. intros w. reflexivity.
Qed.

(** *** The pagination loop *)

Lemma show_more_pass_result (o : ShowMore) :
  outcome (show_more_pass o)
  = if continues o then Ok Continue
    else if ends o then Ok Break
    else match escapes o with Some e => Raise e | None => Ok Continue end.
Proof.
  unfold outcome, show_more_pass, show_more_attempt, try_except, bind, sleep, browser,
    print, emit, raise, ret, escapes, ends, continues, raises_class.
  destruct o as [| e | e]; simpl; try reflexivity;
    destruct (String.eqb (exn_class e) ElementClickInterceptedException); simpl;
    try reflexivity;
    destruct (String.eqb (exn_class e) NoSuchElementException); reflexivity.
Qed.

Lemma show_more_pass_continues (o : ShowMore) :
  continues o = true -> runs (show_more_pass o) (Ok Continue).
Proof.
  intros H. pose proof (stateless_runs _ (stateless_show_more_pass o)) as Hr.
  now rewrite show_more_pass_result, H in Hr.
Qed.

Lemma show_more_pass_ends (o : ShowMore) :
  ends o = true -> runs (show_more_pass o) (Ok Break).
Proof.
  intros H. pose proof (stateless_runs _ (stateless_show_more_pass o)) as Hr.
  rewrite show_more_pass_result, H in Hr.
  unfold ends in H. apply andb_prop in H. destruct H as [Hc _].
  apply negb_true_iff in Hc. now rewrite Hc in Hr.
Qed.

Lemma show_more_pass_escapes (o : ShowMore) (e : Exn) :
  escapes o = Some e -> runs (show_more_pass o) (Raise e).
Proof.
  intros H. pose proof (stateless_runs _ (stateless_show_more_pass o)) as Hr.
  rewrite show_more_pass_result, H in Hr.
  unfold escapes in H. destruct o as [| e' | e']; try discriminate;
    destruct (continues _); simpl in H; try discriminate;
    destruct (ends _); simpl in H; try discriminate; exact Hr.
Qed.

Lemma clicks_of_cons (o : ShowMore) (passes : list ShowMore) (n : nat) :
  continues o = true ->
  match o with Clicked => S n | _ => n end + clicks_of passes
  = n + clicks_of (o :: passes).
Proof.
  intros _. unfold clicks_of. destruct o; simpl; lia.
Qed.

(** Passes that go on are walked through; the clicks among them are counted. *)
Lemma click_show_more_prefix (before rest : list ShowMore) (r : Result nat) :
  forallb continues before = true ->
  forall n,
    runs (click_show_more rest (n + clicks_of before)) r ->
    runs (click_show_more (before ++ rest)%list n) r.
Proof.
  induction before as [| o before IH]; intros Hall n Hrest.
  - unfold clicks_of in Hrest. simpl in *. now rewrite Nat.add_0_r in Hrest.
  - simpl in Hall. apply andb_prop in Hall. destruct Hall as [Ho Hall].
    simpl. apply runs_bind with (a := Continue); [now apply show_more_pass_continues |].
    apply IH; [exact Hall |]. now rewrite clicks_of_cons.
Qed.

(** The loop ends where the button is not found, or where the passes end. *)
Lemma click_show_more_end (rest : list ShowMore) (n : nat) :
  match rest with [] => True | o :: _ => ends o = true end ->
  runs (click_show_more rest n) (Ok n).
Proof.
  destruct rest as [| o after]; intros H; simpl.
  - apply runs_bind with (a := Break); [| apply runs_ret].
    now apply show_more_pass_ends.
  - apply runs_bind with (a := Break); [now apply show_more_pass_ends | apply runs_ret].
Qed.

Lemma click_show_more_escape (o : ShowMore) (after : list ShowMore) (n : nat) (e : Exn) :
  escapes o = Some e -> runs (click_show_more (o :: after) n) (Raise e).
Proof.
  intros H. simpl. apply runs_bind_raise. now apply show_more_pass_escapes.
Qed.

(** The scraper up to the pagination loop, when the page loads. *)
Lemma scrape_from_the_loop (U : Upstream) (url : string) (r : Result (list ProfessorLink)) :
  driver_get U url = None ->
  runs (bind (click_show_more (show_more U) 0)
          (fun clicks =>
             bind (browser PageSource)
               (fun _ =>
                  let professors_data := map link_of_card (page_cards U clicks) in
                  bind (print ("Scraped " ++ string_of_nat (length professors_data)
                               ++ " professor links."))
                    (fun _ => ret professors_data)))) r ->
  runs (scrape_professor_links U url) r.
Proof.
  intros Hget Hloop. unfold scrape_professor_links.
  apply runs_bind with (a := tt); [apply runs_emit |].
  apply runs_bind with (a := tt); [apply runs_emit |].
  apply runs_bind with (a := tt); [apply runs_emit |].
  apply runs_bind with (a := tt); [rewrite Hget; apply runs_ret |].
  apply runs_bind with (a := tt); [apply runs_overlay; intros; apply runs_emit |].
  apply runs_bind with (a := tt); [apply runs_overlay; intros; apply runs_emit |].
  exact Hloop.
Qed.

(** *** Events of the scraper *)

Lemma emits_local_click_show_more (P : Event -> Prop) (passes : list ShowMore) :
  (forall e, is_local e = true -> P e) ->
  forall clicks, emits P (click_show_more passes clicks).
Proof.
  intros HP.
  assert (Hpass : forall o, emits P (show_more_pass o)).
  { intros o. unfold show_more_pass, show_more_attempt, print, sleep, browser.
    apply emits_try.
    - destruct o; emits_steps ltac:(apply HP; reflexivity).
    - intros e. destruct (String.eqb _ _); [| destruct (String.eqb _ _)];
        emits_steps ltac:(apply HP; reflexivity). }
  induction passes as [| o rest IH]; intros clicks; simpl.
  - apply emits_bind; [apply Hpass | intros; apply emits_ret].
  - apply emits_bind; [apply Hpass |].
    intros [|]; [apply IH | apply emits_ret].
Qed.

Lemma emits_local_scrape (P : Event -> Prop) (U : Upstream) (url : string) :
  (forall e, is_local e = true -> P e) ->
  emits P (scrape_professor_links U url).
Proof.
  intros HP. unfold scrape_professor_links, print, print_args, browser.
  repeat first
    [ apply emits_local_click_show_more; exact HP
    | apply emits_ret | apply emits_answer
    | apply emits_bind; [| intros ?] | apply emits_try; [| intros ?]
    | apply emits_emit; apply HP; reflexivity ].
Qed.

(** Whatever it returns, the scraper adds local events and nothing else. *)
Lemma scrape_run (U : Upstream) (url : string) (w : World) :
  exists evs,
    scrape_professor_links U url w = (outcome (scrape_professor_links U url), log evs w) /\
    forallb is_local evs = true.
Proof.
  destruct (stateless_outcome _ (stateless_scrape U url) w) as (evs & Hs).
  exists evs. split; [exact Hs |].
  destruct (emits_local_scrape (fun e => is_local e = true) U url (fun e H => H) w)
    as (evs' & Ht & Hall).
  rewrite Hs in Ht. simpl in Ht. apply app_inv_head in Ht. subst evs'.
  apply forallb_forall. now apply Forall_forall.
Qed.

Lemma local_events_are_quiet (evs : list Event) :
  forallb is_local evs = true -> filter is_store evs = [] /\ http_gets evs = [].
Proof.
  induction evs as [| e evs IH]; simpl; [auto |].
  intros H. apply andb_prop in H. destruct H as [He H].
  destruct (IH H) as [Hs Hh].
  destruct e as [| | [] | |]; simpl in *; try discriminate; auto.
Qed.

Lemma http_gets_app (a b : list Event) :
  http_gets (a ++ b)%list = (http_gets a ++ http_gets b)%list.
Proof. unfold http_gets. apply flat_map_app. Qed.

(** *** Rows of other names *)

Lemma filter_upsert_other (n : string) (d : ProfessorRow) (t : list ProfessorRow) :
  row_name d <> n ->
  filter (name_is n) (upsert d t) = filter (name_is n) t.
Proof.
  intros Hd.
  assert (Hnd : name_is n d = false) by (unfold name_is; now apply String.eqb_neq).
  unfold upsert. destruct (filter (name_is (row_name d)) t) as [| r0 rows].
  - rewrite filter_app. simpl. rewrite Hnd. now rewrite app_nil_r.
  - clear r0 rows. induction t as [| r t IH]; simpl; [reflexivity |].
    destruct (name_is (row_name d) r) eqn:Hr.
    + unfold name_is in Hr. apply String.eqb_eq in Hr.
      assert (Hnr : name_is n r = false).
      { unfold name_is. apply String.eqb_neq. congruence. }
      now rewrite Hnd, Hnr.
    + destruct (name_is n r); now rewrite IH.
Qed.

(** The upsert of a professor leaves the rows of every other name alone,
    whatever the store answers. *)
Lemma store_professor_other (p : ProfessorLink) (d : ProfessorRow) (n : string) (w : World) :
  row_name d = name p -> name p <> n ->
  filter (name_is n) (table (snd (store_professor p d w))) = filter (name_is n) (table w).
Proof.
  intros Hd Hn.
  destruct (faults_cases (faults w)) as [H | [(e & rest & H) | (e & rest & H)]].
  - rewrite (store_professor_answered p d w H). rewrite <- Hd, upsert_is_store_semantics.
    simpl. apply filter_upsert_other. congruence.
  - now rewrite (store_professor_select_refused p d w e rest H).
  - now rewrite (store_professor_write_refused p d w e rest H).
Qed.

Lemma process_professor_other (U : Upstream) (p : ProfessorLink) (n : string) (w : World) :
  name p <> n ->
  filter (name_is n) (table (snd (process_professor U p w))) = filter (name_is n) (table w).
Proof.
  intros Hn.
  destruct (outcome (fetch_rating_distributions U (rmp_link p)))
    as [[[| item items] |] | e] eqn:Hp.
  - now rewrite (process_professor_no_data U p w _ Hp eq_refl).
  - rewrite (process_professor_found U p w item items Hp).
    now rewrite store_professor_other.
  - now rewrite (process_professor_no_data U p w _ Hp eq_refl).
  - now rewrite (process_professor_raises U p w e Hp).
Qed.

Lemma for_each_professor_other (U : Upstream) (l : list ProfessorLink) (n : string) :
  (forall p, In p l -> name p <> n) ->
  forall w,
    filter (name_is n) (table (snd (for_each_professor U l w)))
    = filter (name_is n) (table w).
Proof.
  induction l as [| p l IH]; intros Hl w; simpl; [reflexivity |].
  pose proof (process_professor_other U p n w (Hl p (or_introl eq_refl))) as Hp.
  unfold bind. destruct (process_professor U p w) as [[[] | e] w1]; simpl in *.
  - rewrite IH by (intros q Hq; apply Hl; now right). exact Hp.
  - exact Hp.
Qed.

(** *** One request per professor *)

Lemma store_professor_no_http (p : ProfessorLink) (d : ProfessorRow) (w : World) :
  exists w' evs,
    store_professor p d w = (Ok tt, w') /\
    trace w' = (trace w ++ EvStore (SelectByName (name p)) :: evs)%list /\
    http_gets evs = [].
Proof.
  destruct (faults_cases (faults w)) as [H | [(e & rest & H) | (e & rest & H)]].
  - rewrite (store_professor_answered p d w H). eexists. eexists.
    split; [reflexivity |]. split; [reflexivity |].
    simpl. now destruct (write_of (name p) d (table w)).
  - rewrite (store_professor_select_refused p d w e rest H). eexists. eexists.
    split; [reflexivity |]. split; reflexivity.
  - rewrite (store_professor_write_refused p d w e rest H). eexists. eexists.
    split; [reflexivity |]. split; [reflexivity |].
    simpl. now destruct (write_of (name p) d (table w)).
Qed.

Lemma process_professor_one_request (U : Upstream) (p : ProfessorLink) (w : World)
    (rd : option pydict) :
  outcome (fetch_rating_distributions U (rmp_link p)) = Ok rd ->
  exists w' evs,
    process_professor U p w = (Ok tt, w') /\
    trace w' = (trace w ++ evs)%list /\
    http_gets evs = [rmp_link p].
Proof.
  intros Hrd. destruct (truthy rd) eqn:Ht.
  - destruct rd as [[| item items] |]; try discriminate.
    rewrite (process_professor_found U p w item items Hrd).
    destruct (store_professor_no_http p (professor_data_of p (item :: items))
                (log [EvPrint [PStr ("Fetching ratings for " ++ name p)];
                      EvHttpGet (rmp_link p)] w)) as (w' & evs & Hw' & Htr & Hh).
    exists w'. eexists. split; [exact Hw' |]. split.
    + rewrite Htr. simpl. rewrite <- app_assoc. reflexivity.
    + simpl. now rewrite Hh.
  - rewrite (process_professor_no_data U p w rd Hrd Ht).
    eexists. eexists. split; [reflexivity |]. split; reflexivity.
Qed.

(** *** The scan and the probe *)

Lemma scan_items_none (items : pydict) :
  (forall item, In item items -> is_ratings_distribution (snd item) = false) ->
  scan_items items = None.
Proof.
  induction items as [| [k v] items IH]; intros H; simpl; [reflexivity |].
  pose proof (H (k, v) (or_introl eq_refl)) as Hv. simpl in Hv. rewrite Hv.
  apply IH. intros item Hin. apply H. now right.
Qed.

Lemma fetch_result_tagged (U : Upstream) (link : string) (rd : pydict) :
  outcome (fetch_rating_distributions U link) = Ok (Some rd) ->
  is_ratings_distribution (PyDict rd) = true.
Proof.
  unfold outcome, fetch_rating_distributions, http_get, bind, emit, lift, ret, raise.
  simpl.
  destruct (requests_get U link) as [body | e]; [| discriminate].
  destruct (soup_find_script U body _) as [script |]; [| discriminate].
  destruct (re_search_group1 U _ script) as [json_str |]; [| discriminate].
  destruct (json_loads U json_str) as [[] | e]; try discriminate.
  simpl. intros H. inversion H as [Hs]. now apply scan_items_found with (items := items).
Qed.

Lemma probe_cases (w : World) :
  exists connected evs,
    test_supabase_connection w
    = (Ok connected, mkWorld (table w) (tl (faults w)) (trace w ++ evs)%list) /\
    (connected = true <-> hd None (faults w) = None) /\
    filter is_store evs = [EvStore SelectLimit1] /\ http_gets evs = [].
Proof.
  destruct (faults w) as [| [e |] rest] eqn:Hf.
  - exists true. eexists. rewrite probe_answered by now rewrite Hf.
    rewrite Hf. simpl. repeat split; reflexivity.
  - exists false. eexists. rewrite (probe_refused w e rest Hf). simpl.
    repeat split; try reflexivity; discriminate.
  - exists true. eexists. rewrite probe_answered by now rewrite Hf.
    rewrite Hf. simpl. repeat split; reflexivity.
Qed.

(** *** The professors the loop gets through *)

Lemma processed_returns (U : Upstream) (l : list ProfessorLink) (q : ProfessorLink) :
  In q (processed U l) ->
  exists rd, outcome (fetch_rating_distributions U (rmp_link q)) = Ok rd.
Proof.
  induction l as [| p l IH]; simpl; [intros [] |].
  destruct (outcome (fetch_rating_distributions U (rmp_link p))) as [rd | e] eqn:Hp;
    [| intros []].
  intros [<- | Hin]; [eauto | now apply IH].
Qed.


Lemma for_each_professor_app (U : Upstream) (pre rest : list ProfessorLink) :
  (forall q, In q pre ->
     exists rd, outcome (fetch_rating_distributions U (rmp_link q)) = Ok rd) ->
  forall w,
    for_each_professor U (pre ++ rest)%list w
    = for_each_professor U rest (snd (for_each_professor U pre w)).
Proof.
  induction pre as [| p pre IH]; intros Hpre w; simpl; [reflexivity |].
  destruct (Hpre p (or_introl eq_refl)) as (rd & Hp).
  destruct (process_professor_attempts U p w rd Hp) as (wp & evs & Hwp & _).
  rewrite !(bind_ok _ _ _ _ _ Hwp). apply IH. intros q Hq. apply Hpre. now right.
Qed.


(** *** The store calls of a run that finds every name *)

Lemma for_each_professor_updates (U : Upstream) (l : list ProfessorLink) :
  forall w,
    reliable w = true ->
    (forall d, In d (records_of U l) -> 0 < count_name (row_name d) (table w)) ->
    exists evs,
      trace (snd (for_each_professor U l w)) = (trace w ++ evs)%list /\
      filter is_store evs = flat_map select_then_update (records_of U l).
Proof.
  induction l as [| p l IH]; intros w Hw Hrows; simpl.
  - exists []. split; [now rewrite app_nil_r | reflexivity].
  - simpl in Hrows. unfold bind.
    destruct (outcome (fetch_rating_distributions U (rmp_link p)))
      as [[[| item items] |] | e] eqn:Hp.
    + rewrite (process_professor_no_data U p w _ Hp eq_refl).
      destruct (IH (log [EvPrint [PStr ("Fetching ratings for " ++ name p)];
                         EvHttpGet (rmp_link p);
                         EvPrint [PStr ("No rating distributions found for " ++ name p)]] w)
                  Hw Hrows) as (evs & Ht & Hf).
      eexists. split; [rewrite Ht; simpl; rewrite <- app_assoc; reflexivity |].
      simpl. exact Hf.
    + set (d := professor_data_of p (item :: items)) in *.
      rewrite (process_professor_found U p w item items Hp). fold d.
      rewrite store_professor_answered by (now apply reliable_first_fault).
      cbn [log table faults trace].
      assert (Hwrite : write_of (name p) d (table w) = UpdateByName d (name p)).
      { pose proof (Hrows d (or_introl eq_refl)) as Hd. unfold write_of, count_name in *.
        change (row_name d) with (name p) in Hd.
        destruct (filter (name_is (name p)) (table w)); [simpl in Hd; lia | reflexivity]. }
      rewrite Hwrite. cbn [snd store_semantics].
      match goal with |- context [for_each_professor U l ?w1] =>
        destruct (IH w1) as (evs & Ht & Hf) end.
      { unfold reliable. simpl. now do 2 apply reliable_tl. }
      { intros d' Hd'. cbn [table].
        pose proof (Hrows d' (or_intror Hd')) as Hc.
        now rewrite (count_name_update (row_name d') (name p) d (table w) eq_refl). }
      eexists. split; [rewrite Ht; simpl; rewrite <- !app_assoc; reflexivity |].
      simpl. now rewrite Hf.
    + rewrite (process_professor_no_data U p w _ Hp eq_refl).
      destruct (IH (log [EvPrint [PStr ("Fetching ratings for " ++ name p)];
                         EvHttpGet (rmp_link p);
                         EvPrint [PStr ("No rating distributions found for " ++ name p)]] w)
                  Hw Hrows) as (evs & Ht & Hf).
      eexists. split; [rewrite Ht; simpl; rewrite <- app_assoc; reflexivity |].
      simpl. exact Hf.
    + rewrite (process_professor_raises U p w e Hp). eexists.
      split; [reflexivity | reflexivity].
Qed.

Lemma main_store_calls_when_present (U : Upstream) (w : World) :
  reliable w = true ->
  (forall d, In d (records U) -> 0 < count_name (row_name d) (table w)) ->
  exists evs,
    trace (snd (main U w)) = (trace w ++ evs)%list /\
    filter is_store evs
    = EvStore SelectLimit1 :: flat_map select_then_update (records U).
Proof.
  intros Hw Hrows. unfold main.
  assert (Hhd : hd None (faults w) = None).
  { unfold reliable in Hw. destruct (faults w) as [| [e |] fs]; simpl in *; auto.
    discriminate. }
  rewrite (bind_ok _ _ _ _ _ (probe_answered w Hhd)). cbn [negb].
  set (w0 := mkWorld (table w) (tl (faults w)) _).
  destruct (scrape_run U BASE_URL w0) as (evs1 & Hs & Hlocal).
  assert (Hw0 : reliable w0 = true) by (unfold reliable; simpl; now apply reliable_tl).
  destruct (local_events_are_quiet evs1 Hlocal) as [Hq _].
  unfold records in *.
  destruct (outcome (scrape_professor_links U BASE_URL)) as [l | e].
  - rewrite (bind_ok _ _ _ _ _ Hs).
    destruct (for_each_professor_updates U l (log evs1 w0) Hw0 Hrows) as (evs2 & Ht & Hf).
    unfold bind.
    destruct (for_each_professor U l (log evs1 w0)) as [[[] | e] w2]; cbn [snd] in *.
    + exists ([EvStore SelectLimit1;
               EvPrint [PStr "Successfully connected to Supabase!"];
               EvPrint [PStr "Sample data:"; PRows (firstn 1 (table w))]]
              ++ evs1 ++ evs2
              ++ [EvPrint [PStr "Completed scraping and storing professor data."]])%list.
      split.
      * unfold print, emit. cbn [snd trace]. rewrite Ht. unfold w0, log. simpl.
        now rewrite <- !app_assoc.
      * simpl. rewrite !filter_app, Hq, Hf. simpl. now rewrite app_nil_r.
    + exists ([EvStore SelectLimit1;
               EvPrint [PStr "Successfully connected to Supabase!"];
               EvPrint [PStr "Sample data:"; PRows (firstn 1 (table w))]]
              ++ evs1 ++ evs2)%list.
      split.
      * rewrite Ht. unfold w0, log. simpl. now rewrite <- !app_assoc.
      * simpl. rewrite !filter_app, Hq, Hf. reflexivity.
  - rewrite (bind_raise _ _ _ _ _ Hs).
    exists ([EvStore SelectLimit1;
             EvPrint [PStr "Successfully connected to Supabase!"];
             EvPrint [PStr "Sample data:"; PRows (firstn 1 (table w))]]
            ++ evs1)%list.
    split.
    + unfold w0, log. simpl. now rewrite <- !app_assoc.
    + simpl. rewrite Hq. reflexivity.
Qed.

(** *** The pass of a professor whose name has a row *)

Lemma processed_prefix (U : Upstream) (l : list ProfessorLink) :
  exists rest, l = (processed U l ++ rest)%list.
Proof.
  induction l as [| p l (rest & IH)]; simpl; [now exists [] |].
  destruct (outcome (fetch_rating_distributions U (rmp_link p))).
  - exists rest. simpl. now rewrite <- IH.
  - now exists (p :: l).
Qed.

Lemma for_each_professor_extends (U : Upstream) (l : list ProfessorLink) (w : World) :
  exists evs, trace (snd (for_each_professor U l w)) = (trace w ++ evs)%list.
Proof.
  destruct (inserts_fresh_for_each_professor U l w) as (evs & Ht & _). now exists evs.
Qed.

(** The world a pass of the loop starts from holds the events and the rows
    of the world [main] started from. *)
Lemma world_at_grows (U : Upstream) (w : World) (pre : list ProfessorLink) :
  (exists before, trace (world_at U w pre) = (trace w ++ before)%list) /\
  forall n, count_name n (table w) <= count_name n (table (world_at U w pre)).
Proof.
  unfold world_at.
  destruct (inserts_fresh_probe w) as (evs1 & Ht1 & _ & Hc1).
  destruct (scrape_run U BASE_URL (snd (test_supabase_connection w))) as (evs2 & Hs & _).
  rewrite Hs. cbn [snd].
  destruct (inserts_fresh_for_each_professor U pre
              (log evs2 (snd (test_supabase_connection w)))) as (evs3 & Ht3 & _ & Hc3).
  split.
  - exists (evs1 ++ evs2 ++ evs3)%list. rewrite Ht3. cbn [log trace].
    now rewrite Ht1, <- !app_assoc.
  - intros n. specialize (Hc1 n). specialize (Hc3 n). cbn [log table] in Hc3. lia.
Qed.

Lemma main_trace (U : Upstream) (w : World) (l : list ProfessorLink) :
  hd None (faults w) = None ->
  outcome (scrape_professor_links U BASE_URL) = Ok l ->
  exists tail,
    trace (snd (main U w))
    = (trace (snd (for_each_professor U l
                     (snd (scrape_professor_links U BASE_URL
                             (snd (test_supabase_connection w))))))
       ++ tail)%list.
Proof.
  intros Hhd Hscrape. unfold main.
  rewrite (bind_ok _ _ _ _ _ (probe_answered w Hhd)), (probe_answered w Hhd).
  cbn [negb snd].
  match goal with |- context [bind (scrape_professor_links U BASE_URL) _ ?w0] =>
    destruct (scrape_run U BASE_URL w0) as (evs & Hs & _) end.
  rewrite Hscrape in Hs. rewrite (bind_ok _ _ _ _ _ Hs), Hs. cbn [snd].
  unfold bind.
  destruct (for_each_professor U l _) as [[[] | e] w2]; cbn [snd].
  - now exists [EvPrint [PStr "Completed scraping and storing professor data."]].
  - exists []. now rewrite app_nil_r.
Qed.

(** With a row of the name in the table and the existence query answered,
    the write that follows is an update, answered or not. *)
Lemma store_professor_updates (p : ProfessorLink) (d : ProfessorRow) (w : World) :
  hd None (faults w) = None ->
  0 < count_name (name p) (table w) ->
  exists w' rest,
    store_professor p d w = (Ok tt, w') /\
    trace w' = (trace w ++ [EvStore (SelectByName (name p));
                            EvStore (UpdateByName d (name p))] ++ rest)%list.
Proof.
  intros Hhd Hrow.
  assert (Hwrite : write_of (name p) d (table w) = UpdateByName d (name p)).
  { unfold write_of, count_name in *.
    destruct (filter (name_is (name p)) (table w)); [simpl in Hrow; lia | reflexivity]. }
  destruct (faults_cases (faults w)) as [H | [(e & rest & H) | (e & rest & H)]].
  - rewrite (store_professor_answered p d w H), Hwrite.
    eexists. exists [EvPrint [PStr ("Stored ratings for " ++ name p)]].
    split; reflexivity.
  - rewrite H in Hhd. discriminate.
  - rewrite (store_professor_write_refused p d w e rest H), Hwrite.
    eexists. exists [EvPrint [PStr ("Error storing data for " ++ name p ++ ": "
                                    ++ exn_msg e)]].
    split; reflexivity.
Qed.

(** The pass of a processed professor with rating data, in a run that began
    with a row of the name in the table. *)
Lemma main_pass_updates (U : Upstream) (w : World)
    (l pre post : list ProfessorLink) (p : ProfessorLink) (rd : pydict) :
  hd None (faults w) = None ->
  outcome (scrape_professor_links U BASE_URL) = Ok l ->
  processed U l = (pre ++ p :: post)%list ->
  outcome (fetch_rating_distributions U (rmp_link p)) = Ok (Some rd) ->
  0 < count_name (name p) (table w) ->
  hd None (faults (world_at U w pre)) = None ->
  exists before rest,
    trace (world_at U w pre) = (trace w ++ before)%list /\
    trace (snd (main U w)) = (trace w ++ before ++ pass_with_update p rd ++ rest)%list.
Proof.
  intros Hprobe Hscrape Hproc Hfetch Hrow Hselect.
  destruct (fetch_result_found U _ rd Hfetch) as (item & items & Hrd). subst rd.
  assert (Hpre : forall q, In q pre ->
            exists r, outcome (fetch_rating_distributions U (rmp_link q)) = Ok r).
  { intros q Hq. apply (processed_returns U l). rewrite Hproc. apply in_or_app. now left. }
  destruct (processed_prefix U l) as (unreached & Hl). rewrite Hproc in Hl.
  rewrite <- app_assoc in Hl. cbn [app] in Hl.
  destruct (main_trace U w l Hprobe Hscrape) as (tail & Hmain).
  rewrite Hl, (for_each_professor_app U pre _ Hpre) in Hmain.
  fold (world_at U w pre) in Hmain. cbn [for_each_professor] in Hmain.
  destruct (world_at_grows U w pre) as [(before & Hbefore) Hcount].
  pose proof (process_professor_found U p (world_at U w pre) item items Hfetch) as Hpass.
  destruct (store_professor_updates p (professor_data_of p (item :: items))
              (log [EvPrint [PStr ("Fetching ratings for " ++ name p)];
                    EvHttpGet (rmp_link p)] (world_at U w pre)) Hselect)
    as (wp & rest & Hstore & Htrace).
  { cbn [log table]. specialize (Hcount (name p)). lia. }
  rewrite Hstore in Hpass. rewrite (bind_ok _ _ _ _ _ Hpass) in Hmain.
  destruct (for_each_professor_extends U (post ++ unreached)%list wp) as (evs & Hloop).
  exists before, (rest ++ evs ++ tail)%list. split; [exact Hbefore |].
  rewrite Hmain, Hloop, Htrace. cbn [log trace]. rewrite Hbefore.
  unfold pass_with_update. cbn [app]. rewrite <- !app_assoc. reflexivity.
Qed.

(** ** Running the model *)

Example department_links :
  outcome (scrape_professor_links Scenario.department BASE_URL)
  = Ok [Scenario.ada_101; Scenario.alan_102; Scenario.ada_103].
Proof. vm_compute. reflexivity. Qed.

Example department_pagination :
  map (fun e => match e with EvPrint [PStr s] => s | _ => EmptyString end)
      (filter (fun e => match e with EvPrint [PStr _] => true | _ => false end)
              (trace (snd (scrape_professor_links Scenario.department BASE_URL idle))))
  = ["Starting professor link scraping...";
     "Clicked 'Show More' button";
     "Element is blocked by another element (likely an ad).";
     "Clicked 'Show More' button";
     "No more 'Show More' button found.";
     "Scraped 3 professor links."].
Proof. vm_compute. reflexivity. Qed.

Example department_store_calls :
  filter is_store (trace (snd (main Scenario.department idle)))
  = [EvStore SelectLimit1;
     EvStore (SelectByName "Ada Lovelace");
     EvStore (Insert (professor_data_of Scenario.ada_101 Scenario.rd_101));
     EvStore (SelectByName "Ada Lovelace");
     EvStore (UpdateByName (professor_data_of Scenario.ada_103 Scenario.rd_103)
                           "Ada Lovelace")].
Proof. vm_compute. reflexivity. Qed.

Example department_table :
  table (snd (main Scenario.department idle))
  = [mkRow "Ada Lovelace" "https://www.ratemyprofessors.com/professor/103"
           (PyInt 7) (PyInt 3) (PyInt 0) (PyInt 0) (PyInt 0)].
Proof. vm_compute. reflexivity. Qed.

Example department_second_run_only_updates :
  let w1 := snd (main Scenario.department idle) in
  filter is_store (skipn (length (trace w1)) (trace (snd (main Scenario.department w1))))
  = [EvStore SelectLimit1;
     EvStore (SelectByName "Ada Lovelace");
     EvStore (UpdateByName (professor_data_of Scenario.ada_101 Scenario.rd_101)
                           "Ada Lovelace");
     EvStore (SelectByName "Ada Lovelace");
     EvStore (UpdateByName (professor_data_of Scenario.ada_103 Scenario.rd_103)
                           "Ada Lovelace")].
Proof. vm_compute. reflexivity. Qed.

(** A failed select is printed and the loop goes on to the next professor. *)
Example department_with_a_failed_select :
  let w := mkWorld [] [None; Some Scenario.APIError] [] in
  fst (main Scenario.department w) = Ok tt /\
  In (EvPrint [PStr "Error storing data for Ada Lovelace: upstream connect error"])
     (trace (snd (main Scenario.department w))) /\
  table (snd (main Scenario.department w))
  = [professor_data_of Scenario.ada_103 Scenario.rd_103].
Proof. vm_compute. repeat split. tauto. Qed.

(** ** The claims *)

(** C1, as the code has it.  The [try] of the loop encloses the store calls
    alone.  As long as no extraction raises, the loop returns whatever the
    store does and fetches every professor of the list; a store call that
    fails is caught and its message is the last thing the upsert prints.  An
    exception of the extractor is not caught: it leaves the loop at that
    professor. *)
Theorem store_failures_do_not_abort_the_run (U : Upstream)
    (professors_data : list ProfessorLink) (w : World) :
  (forall professor, In professor professors_data ->
     exists rd, outcome (fetch_rating_distributions U (rmp_link professor)) = Ok rd) ->
  (exists w' evs,
     for_each_professor U professors_data w = (Ok tt, w') /\
     trace w' = (trace w ++ evs)%list /\
     forall professor, In professor professors_data ->
       In (EvHttpGet (rmp_link professor)) evs) /\
  (forall professor professor_data w0 e,
     first_fault 2 (faults w0) = Some e ->
     exists w1 evs,
       store_professor professor professor_data w0 = (Ok tt, w1) /\
       trace w1
       = (trace w0 ++ evs
          ++ [EvPrint [PStr ("Error storing data for " ++ name professor ++ ": "
                             ++ exn_msg e)]])%list) /\
  (forall professor rest w0 e,
     outcome (fetch_rating_distributions U (rmp_link professor)) = Raise e ->
     exists w1, for_each_professor U (professor :: rest) w0 = (Raise e, w1)).
Proof.
  intros Hfetch. split; [| split].
  - now apply for_each_professor_attempts.
  - intros p d w0 e He.
    destruct (first_fault_2 _ _ He) as [(rest & Hf) | (rest & Hf)].
    + rewrite (store_professor_select_refused p d w0 e rest Hf).
      eexists. exists [EvStore (SelectByName (name p))]. split; reflexivity.
    + rewrite (store_professor_write_refused p d w0 e rest Hf).
      eexists. exists [EvStore (SelectByName (name p));
                       EvStore (write_of (name p) d (table w0))].
      split; reflexivity.
  - intros p rest w0 e He. simpl.
    rewrite (bind_raise _ _ _ _ _ (process_professor_raises U p w0 e He)). eauto.
Qed.

Lemma store_failures_do_not_abort_the_run_witness :
  exists w' evs,
    for_each_professor Scenario.department
      [Scenario.ada_101; Scenario.alan_102; Scenario.ada_103]
      (mkWorld [] [Some Scenario.APIError] []) = (Ok tt, w') /\
    trace w' = ([] ++ evs)%list /\
    forall professor,
      In professor [Scenario.ada_101; Scenario.alan_102; Scenario.ada_103] ->
      In (EvHttpGet (rmp_link professor)) evs.
Proof.
  refine (proj1 (store_failures_do_not_abort_the_run Scenario.department
                   [Scenario.ada_101; Scenario.alan_102; Scenario.ada_103]
                   (mkWorld [] [Some Scenario.APIError] []) _)).
  intros professor [<- | [<- | [<- | []]]]; eexists; vm_compute; reflexivity.
Defined.

(** C1 fails as stated: the first of two scraped profiles does not answer,
    the exception of the request leaves [main], and the second professor is
    never fetched. *)
Lemma fetch_failure_aborts_the_run :
  let U := Scenario.unreachable in
  outcome (scrape_professor_links U BASE_URL)
  = Ok [mkLink "Ada Lovelace" "https://www.ratemyprofessors.com/professor/101";
        mkLink "Alan Turing" "https://www.ratemyprofessors.com/professor/102"] /\
  requests_get U "https://www.ratemyprofessors.com/professor/101"
  = Raise Scenario.ConnectionError /\
  fst (main U idle) = Raise Scenario.ConnectionError /\
  ~ In (EvHttpGet "https://www.ratemyprofessors.com/professor/102")
       (trace (snd (main U idle))).
Proof.
  cbv zeta. split; [| split; [| split]].
  - vm_compute. reflexivity.
  - vm_compute. reflexivity.
  - vm_compute. reflexivity.
  - vm_compute. intuition discriminate.
Qed.

(** C2, as the code has it.  When no script with the marker is found the
    extractor returns no data and raises nothing.  When the captured text
    does not parse, the exception of [json.loads] leaves the extractor. *)
Theorem marker_absent_is_no_data_and_parse_failure_raises (U : Upstream)
    (link body : string) (w : World) :
  requests_get U link = Ok body ->
  (soup_find_script U body "window.__RELAY_STORE__" = None ->
   fetch_rating_distributions U link w = (Ok None, log [EvHttpGet link] w)) /\
  (forall script json_str e,
     soup_find_script U body "window.__RELAY_STORE__" = Some script ->
     re_search_group1 U "window\.__RELAY_STORE__\s*=\s*({.*?});" script = Some json_str ->
     json_loads U json_str = Raise e ->
     fetch_rating_distributions U link w = (Raise e, log [EvHttpGet link] w)).
Proof.
  intros Hget. split.
  - intros Hfind. rewrite fetch_run. f_equal.
    unfold outcome, fetch_rating_distributions, http_get, bind, emit, lift, ret. simpl.
    now rewrite Hget, Hfind.
  - intros script json_str e Hfind Hre Hjson. rewrite fetch_run. f_equal.
    unfold outcome, fetch_rating_distributions, http_get, bind, emit, lift, ret. simpl.
    now rewrite Hget, Hfind, Hre, Hjson.
Qed.

Lemma marker_absent_is_no_data_and_parse_failure_raises_witness :
  fetch_rating_distributions Scenario.department (rmp_link Scenario.alan_102) idle
  = (Ok None, log [EvHttpGet (rmp_link Scenario.alan_102)] idle) /\
  fetch_rating_distributions Scenario.broken (Scenario.url "/professor/101") idle
  = (Raise Scenario.JSONDecodeError, log [EvHttpGet (Scenario.url "/professor/101")] idle).
Proof.
  split.
  - exact (proj1 (marker_absent_is_no_data_and_parse_failure_raises Scenario.department
                    (rmp_link Scenario.alan_102) Scenario.body_102 idle eq_refl) eq_refl).
  - exact (proj2 (marker_absent_is_no_data_and_parse_failure_raises Scenario.broken
                    (Scenario.url "/professor/101")
                    (Scenario.body_of (Scenario.script_of Scenario.broken_blob)) idle eq_refl)
                 (Scenario.script_of Scenario.broken_blob) Scenario.broken_blob
                 Scenario.JSONDecodeError eq_refl eq_refl eq_refl).
Defined.

(** C2 fails as stated: the body below holds the marked script, the text
    captured between the marker and the semicolon is not JSON, and the
    extractor raises the parse error where the claim has it return no data. *)
Lemma parse_failure_is_not_no_data :
  let U := Scenario.broken in
  let link := "https://www.ratemyprofessors.com/professor/101" in
  let body := "<html><body><script>window.__RELAY_STORE__ = {oops};</script></body></html>" in
  requests_get U link = Ok body /\
  soup_find_script U body "window.__RELAY_STORE__"
  = Some "window.__RELAY_STORE__ = {oops};" /\
  re_search_group1 U "window\.__RELAY_STORE__\s*=\s*({.*?});"
    "window.__RELAY_STORE__ = {oops};" = Some "{oops}" /\
  json_loads U "{oops}" = Raise Scenario.JSONDecodeError /\
  fst (fetch_rating_distributions U link idle) = Raise Scenario.JSONDecodeError /\
  fst (fetch_rating_distributions U link idle) <> Ok None.
Proof.
  repeat split; try reflexivity. discriminate.
Qed.

(** C3, as the code has it.  When the text that the pattern of line 95
    captures parses to a dict with exactly one value tagged
    ratingsDistribution, the extractor returns that value, and the record
    [main] builds from it maps star k to the value under the key rk, with 0
    where the key is missing.  The pass of the loop returns, and when the
    store answers its two calls the record is written and is in the
    table. *)
Theorem known_shape_blob_yields_star_counts (U : Upstream) (professor : ProfessorLink)
    (body script json_str : string) (before after : pydict) (key : string)
    (rd : pydict) (w : World) :
  requests_get U (rmp_link professor) = Ok body ->
  soup_find_script U body "window.__RELAY_STORE__" = Some script ->
  re_search_group1 U "window\.__RELAY_STORE__\s*=\s*({.*?});" script = Some json_str ->
  json_loads U json_str = Ok (PyDict (before ++ (key, PyDict rd) :: after)%list) ->
  is_ratings_distribution (PyDict rd) = true ->
  (forall item, In item (before ++ after)%list ->
                is_ratings_distribution (snd item) = false) ->
  let star k := match dict_lookup rd k with Some count => count | None => PyInt 0 end in
  let record := professor_data_of professor rd in
  outcome (fetch_rating_distributions U (rmp_link professor)) = Ok (Some rd) /\
  record = mkRow (name professor) (rmp_link professor)
                 (star "r1") (star "r2") (star "r3") (star "r4") (star "r5") /\
  exists w' evs,
    process_professor U professor w = (Ok tt, w') /\
    trace w' = (trace w ++ evs)%list /\
    (first_fault 2 (faults w) = None ->
     In record (table w') /\
     (In (EvStore (Insert record)) evs \/
      In (EvStore (UpdateByName record (name professor))) evs)).
Proof.
  intros Hget Hfind Hre Hjson Htag Hone star record.
  assert (Hfetch : outcome (fetch_rating_distributions U (rmp_link professor))
                   = Ok (Some rd)).
  { unfold outcome, fetch_rating_distributions, http_get, bind, emit, lift, ret. simpl.
    rewrite Hget, Hfind, Hre, Hjson. simpl. f_equal. f_equal.
    apply scan_items_first; [| exact Htag].
    intros item Hin. apply Hone. apply in_or_app. now left. }
  split; [exact Hfetch |]. split; [reflexivity |].
  destruct (tagged_dict_has_item rd Htag) as (item & items & Hrd).
  assert (Hpass : process_professor U professor w
                  = store_professor professor record
                      (log [EvPrint [PStr ("Fetching ratings for " ++ name professor)];
                            EvHttpGet (rmp_link professor)] w)).
  { unfold record. rewrite Hrd. apply process_professor_found. now rewrite <- Hrd. }
  rewrite Hpass.
  destruct (store_professor_events professor record
              (log [EvPrint [PStr ("Fetching ratings for " ++ name professor)];
                    EvHttpGet (rmp_link professor)] w)) as (w' & evs & Hw' & Htr).
  exists w', ([EvPrint [PStr ("Fetching ratings for " ++ name professor)];
               EvHttpGet (rmp_link professor)] ++ evs)%list.
  split; [exact Hw' |]. split; [rewrite Htr; simpl; now rewrite <- app_assoc |].
  intros Hok. rewrite store_professor_answered in Hw' by exact Hok.
  inversion Hw' as [Hw1]. rewrite <- Hw1 in Htr. simpl in Htr.
  rewrite <- !app_assoc in Htr. apply app_inv_head in Htr. simpl in Htr.
  inversion Htr as [Hevs]. simpl.
  split; [apply written_row_is_there |].
  destruct (write_of_cases (name professor) record (table w)) as [-> | ->];
    [left | right]; simpl; auto.
Qed.

Lemma known_shape_blob_yields_star_counts_witness :
  (outcome (fetch_rating_distributions Scenario.department (rmp_link Scenario.ada_101))
   = Ok (Some Scenario.rd_101) /\
   professor_data_of Scenario.ada_101 Scenario.rd_101
   = mkRow "Ada Lovelace" "https://www.ratemyprofessors.com/professor/101"
           (PyInt 2) (PyInt 0) (PyInt 1) (PyInt 4) (PyInt 9)) /\
  (outcome (fetch_rating_distributions Scenario.department (rmp_link Scenario.ada_103))
   = Ok (Some Scenario.rd_103) /\
   professor_data_of Scenario.ada_103 Scenario.rd_103
   = mkRow "Ada Lovelace" "https://www.ratemyprofessors.com/professor/103"
           (PyInt 7) (PyInt 3) (PyInt 0) (PyInt 0) (PyInt 0)).
Proof.
  split.
  - assert (Hone : forall item,
               In item ([("client:root", PyDict [("__typename", PyStr "Query")])] ++ [])%list ->
               is_ratings_distribution (snd item) = false).
    { intros item [<- | []]. reflexivity. }
    pose proof (known_shape_blob_yields_star_counts Scenario.department Scenario.ada_101
                  (Scenario.body_of (Scenario.script_of Scenario.blob_101))
                  (Scenario.script_of Scenario.blob_101) Scenario.blob_101
                  [("client:root", PyDict [("__typename", PyStr "Query")])] []
                  "rd101" Scenario.rd_101 idle
                  eq_refl eq_refl eq_refl eq_refl eq_refl Hone) as H.
    exact (conj (proj1 H) (proj1 (proj2 H))).
  - pose proof (known_shape_blob_yields_star_counts Scenario.department Scenario.ada_103
                  (Scenario.body_of (Scenario.script_of Scenario.blob_103))
                  (Scenario.script_of Scenario.blob_103) Scenario.blob_103
                  [] [] "rd103" Scenario.rd_103 idle
                  eq_refl eq_refl eq_refl eq_refl eq_refl
                  (fun item (H : In item []) => match H with end)) as H.
    exact (conj (proj1 H) (proj1 (proj2 H))).
Defined.

(** C3 fails as stated: the blob of the page below parses, and its only
    tagged value holds r1 to r5, but one of its strings holds a closing
    brace followed by a semicolon.  The non-greedy capture of line 95 runs
    from the first opening brace of the script (index 25) to that brace
    (index 76), [json.loads] raises on the truncated text, and the
    exception leaves the extractor and [main]: no record is built. *)
Lemma statement_end_inside_a_string_breaks_the_capture :
  let script := Scenario.script_of Scenario.blob_motto in
  let body := Scenario.body_of script in
  let pattern := "window\.__RELAY_STORE__\s*=\s*({.*?});" in
  json_loads Scenario.motto Scenario.blob_motto
  = Ok (PyDict [("client:root",
                 PyDict [("__typename", PyStr "Query"); ("motto", PyStr "a};b")]);
                ("rd", PyDict Scenario.rd_motto)]) /\
  is_ratings_distribution
    (PyDict [("__typename", PyStr "Query"); ("motto", PyStr "a};b")]) = false /\
  is_ratings_distribution (PyDict Scenario.rd_motto) = true /\
  map (dict_lookup Scenario.rd_motto) ["r1"; "r2"; "r3"; "r4"; "r5"]
  = [Some (PyInt 1); Some (PyInt 2); Some (PyInt 3); Some (PyInt 4); Some (PyInt 5)] /\
  requests_get Scenario.motto (rmp_link Scenario.ada_101) = Ok body /\
  soup_find_script Scenario.motto body "window.__RELAY_STORE__" = Some script /\
  String.index 0 "{" script = Some 25 /\
  String.index 0 "};" script = Some 76 /\
  substring 25 52 script = Scenario.captured_motto /\
  re_search_group1 Scenario.motto pattern script = Some Scenario.captured_motto /\
  json_loads Scenario.motto Scenario.captured_motto = Raise Scenario.UnterminatedString /\
  outcome (fetch_rating_distributions Scenario.motto (rmp_link Scenario.ada_101))
  = Raise Scenario.UnterminatedString /\
  fst (main Scenario.motto idle) = Raise Scenario.UnterminatedString /\
  table (snd (main Scenario.motto idle)) = [].
Proof. vm_compute. repeat split. Qed.




(** C5, as the code has it.  Take two runs in a row over the same upstream,
    with any answers of the store.  A name that has a row after the first
    run has as many rows after the second, and whatever the second run
    inserts is for a name that had no row.  For a professor the second run
    processes with rating data found, whose name has a row after the first
    run: when the existence query of the pass is answered, the write that
    follows it is an update filtered by the name.  When the store answers
    every call of the second run and each record the loop builds is of a
    name that has a row after the first run, the number of rows of every
    name is the same after both runs, and the store calls of the second run
    are the probe followed, for each record in turn, by the existence query
    and the update: no insert.  A first run in which the store answers every
    call leaves the table and the store in that state. *)
Theorem rerun_does_not_grow_the_table (U : Upstream) (w : World) :
  let w1 := snd (main U w) in
  let w2 := snd (main U w1) in
  (forall n, 0 < count_name n (table w1) ->
             count_name n (table w2) = count_name n (table w1)) /\
  (exists evs,
     trace w2 = (trace w1 ++ evs)%list /\
     forall d, In (EvStore (Insert d)) evs -> count_name (row_name d) (table w1) = 0) /\
  (forall professors_data pre post professor rd,
     hd None (faults w1) = None ->
     outcome (scrape_professor_links U BASE_URL) = Ok professors_data ->
     processed U professors_data = (pre ++ professor :: post)%list ->
     outcome (fetch_rating_distributions U (rmp_link professor)) = Ok (Some rd) ->
     0 < count_name (name professor) (table w1) ->
     hd None (faults (world_at U w1 pre)) = None ->
     exists before rest,
       trace (world_at U w1 pre) = (trace w1 ++ before)%list /\
       trace w2 = (trace w1 ++ before ++ pass_with_update professor rd ++ rest)%list) /\
  (reliable w1 = true ->
   (forall d, In d (records U) -> 0 < count_name (row_name d) (table w1)) ->
   (forall n, count_name n (table w2) = count_name n (table w1)) /\
   exists evs,
     trace w2 = (trace w1 ++ evs)%list /\
     filter is_store evs
     = EvStore SelectLimit1 :: flat_map select_then_update (records U)) /\
  (reliable w = true ->
   reliable w1 = true /\
   forall d, In d (records U) -> 0 < count_name (row_name d) (table w1)).
Proof.
  intros w1 w2.
  destruct (inserts_fresh_main U w1) as (evs & Ht & Hi & Hc). fold w2 in Ht, Hc.
  assert (Hmember : forall d, In d (records U) ->
            existsb (fun r => String.eqb (row_name r) (row_name d)) (records U) = true).
  { intros d Hd. apply existsb_exists. exists d. split; [exact Hd | apply String.eqb_refl]. }
  split; [| split; [| split; [| split]]].
  - intros n Hn. specialize (Hc n). lia.
  - exists evs. split; [exact Ht | exact Hi].
  - intros professors_data pre post professor rd Hprobe Hscrape Hproc Hfetch Hrow Hselect.
    exact (main_pass_updates U w1 professors_data pre post professor rd
             Hprobe Hscrape Hproc Hfetch Hrow Hselect).
  - intros Hw1 Hrows. split.
    + intros n. destruct (main_reliable U w1 Hw1) as [Ht2 _]. fold w2 in Ht2.
      rewrite Ht2, count_name_fold.
      destruct (existsb _ (records U)) eqn:Hn; [| reflexivity].
      apply existsb_exists in Hn. destruct Hn as (d & Hd & Hname).
      apply String.eqb_eq in Hname. subst n. specialize (Hrows d Hd). lia.
    + exact (main_store_calls_when_present U w1 Hw1 Hrows).
  - intros Hw. destruct (main_reliable U w Hw) as [Ht1 Hw1]. fold w1 in Ht1, Hw1.
    split; [exact Hw1 |]. intros d Hd.
    rewrite Ht1, count_name_fold, (Hmember d Hd). lia.
Qed.

(** Two instances.  In the first the store refuses one existence query of
    the first run and answers every call of the second.  In the second the
    table holds rows of the name from the start and the store refuses two
    calls of the second run, among them the update, which is issued all the
    same. *)
Lemma rerun_does_not_grow_the_table_witness :
  (let w := mkWorld [] [None; Some Scenario.APIError] [] in
   let w1 := snd (main Scenario.department w) in
   let w2 := snd (main Scenario.department w1) in
   (count_name "Ada Lovelace" (table w2) = count_name "Ada Lovelace" (table w1) /\
    count_name "Alan Turing" (table w2) = count_name "Alan Turing" (table w1)) /\
   exists evs,
     trace w2 = (trace w1 ++ evs)%list /\
     filter is_store evs
     = [EvStore SelectLimit1;
        EvStore (SelectByName "Ada Lovelace");
        EvStore (UpdateByName (professor_data_of Scenario.ada_101 Scenario.rd_101)
                              "Ada Lovelace");
        EvStore (SelectByName "Ada Lovelace");
        EvStore (UpdateByName (professor_data_of Scenario.ada_103 Scenario.rd_103)
                              "Ada Lovelace")]) /\
  (let w := mkWorld (table Scenario.doubled)
              [None; None; None; None; None;
               None; Some Scenario.APIError; None; Some Scenario.APIError] [] in
   let w1 := snd (main Scenario.department w) in
   let w2 := snd (main Scenario.department w1) in
   exists before rest,
     trace (world_at Scenario.department w1 [Scenario.ada_101; Scenario.alan_102])
     = (trace w1 ++ before)%list /\
     trace w2
     = (trace w1 ++ before
        ++ [EvPrint [PStr "Fetching ratings for Ada Lovelace"];
            EvHttpGet "https://www.ratemyprofessors.com/professor/103";
            EvStore (SelectByName "Ada Lovelace");
            EvStore (UpdateByName (professor_data_of Scenario.ada_103 Scenario.rd_103)
                                  "Ada Lovelace")]
        ++ rest)%list).
Proof.
  split.
  - assert (Hrows : forall d, In d (records Scenario.department) ->
              0 < count_name (row_name d)
                    (table (snd (main Scenario.department
                                   (mkWorld [] [None; Some Scenario.APIError] []))))).
    { intros d Hd. vm_compute in Hd. destruct Hd as [<- | [<- | []]]; vm_compute; lia. }
    destruct (proj1 (proj2 (proj2 (proj2
                (rerun_does_not_grow_the_table Scenario.department
                   (mkWorld [] [None; Some Scenario.APIError] [])))))
                eq_refl Hrows) as [Hcount Hcalls].
    split; [exact (conj (Hcount "Ada Lovelace") (Hcount "Alan Turing")) |].
    exact Hcalls.
  - apply (proj1 (proj2 (proj2
             (rerun_does_not_grow_the_table Scenario.department
                (mkWorld (table Scenario.doubled)
                   [None; None; None; None; None;
                    None; Some Scenario.APIError; None; Some Scenario.APIError] []))))
             [Scenario.ada_101; Scenario.alan_102; Scenario.ada_103]
             [Scenario.ada_101; Scenario.alan_102] [] Scenario.ada_103 Scenario.rd_103).
    + vm_compute. reflexivity.
    + vm_compute. reflexivity.
    + vm_compute. reflexivity.
    + vm_compute. reflexivity.
    + vm_compute. lia.
    + vm_compute. reflexivity.
Defined.

(** C5 fails as stated: in the first run below the store answers the probe
    and neither existence query, so both failures are caught and the name,
    processed twice, has no row when the run ends.  The store answers every
    call of the second run over the same upstream: the name has one row
    after it, and the first write of that run is an insert. *)
Lemma rerun_after_failed_writes_inserts :
  let w := mkWorld [] [None; Some Scenario.APIError; Some Scenario.APIError] [] in
  let w1 := snd (main Scenario.department w) in
  let w2 := snd (main Scenario.department w1) in
  fst (main Scenario.department w) = Ok tt /\
  fst (main Scenario.department w1) = Ok tt /\
  filter is_store (trace w1)
  = [EvStore SelectLimit1;
     EvStore (SelectByName "Ada Lovelace");
     EvStore (SelectByName "Ada Lovelace")] /\
  count_name "Ada Lovelace" (table w1) = 0 /\
  count_name "Ada Lovelace" (table w2) = 1 /\
  filter is_store (skipn (length (trace w1)) (trace w2))
  = [EvStore SelectLimit1;
     EvStore (SelectByName "Ada Lovelace");
     EvStore (Insert (professor_data_of Scenario.ada_101 Scenario.rd_101));
     EvStore (SelectByName "Ada Lovelace");
     EvStore (UpdateByName (professor_data_of Scenario.ada_103 Scenario.rd_103)
                           "Ada Lovelace")].
Proof. vm_compute. repeat split. Qed.

(** C6 does not hold of the code.  The pattern of line 91 is compiled with
    an unescaped dot, which stands for any character, where the pattern of
    line 95 escapes it.  The body below does not hold the marker, yet its
    script is the one the first pattern finds; the second pattern finds
    nothing in it, and [.group(1)] raises an AttributeError that leaves the
    extractor and [main]: no "no data" result, no print that none was found,
    and the next professor is never requested. *)
Theorem near_marker_aborts_the_run :
  let body := Scenario.body_of Scenario.near_script in
  let none_has_no_group := AttributeError "'NoneType' object has no attribute 'group'" in
  String.index 0 "window.__RELAY_STORE__" body = None /\
  requests_get Scenario.near_marker (rmp_link Scenario.ada_101) = Ok body /\
  soup_find_script Scenario.near_marker body "window.__RELAY_STORE__"
  = Some Scenario.near_script /\
  re_search_group1 Scenario.near_marker "window\.__RELAY_STORE__\s*=\s*({.*?});"
    Scenario.near_script = None /\
  outcome (fetch_rating_distributions Scenario.near_marker (rmp_link Scenario.ada_101))
  = Raise none_has_no_group /\
  process_professor Scenario.near_marker Scenario.ada_101 idle
  = (Raise none_has_no_group,
     mkWorld [] []
       [EvPrint [PStr "Fetching ratings for Ada Lovelace"];
        EvHttpGet "https://www.ratemyprofessors.com/professor/101"]) /\
  fst (main Scenario.near_marker idle) = Raise none_has_no_group /\
  http_gets (trace (snd (main Scenario.near_marker idle)))
  = ["https://www.ratemyprofessors.com/professor/101"].
Proof. vm_compute. repeat split. Qed.

(** C7.  When the startup probe is not answered, the run ends there: the
    whole program issues the probe, prints the two messages and closes the
    browser.  It navigates nowhere, fetches no profile and writes nothing. *)
Theorem probe_failure_ends_the_run (U : Upstream) (w : World) (e : Exn)
    (rest : list (option Exn)) :
  faults w = Some e :: rest ->
  let issued :=
    [EvStore SelectLimit1;
     EvPrint [PStr "Error connecting to Supabase:"; PStr (exn_msg e)];
     EvPrint [PStr "Exiting due to connection error"]] in
  main U w = (Ok tt, mkWorld (table w) rest (trace w ++ issued)%list) /\
  program U w
  = (Ok tt, mkWorld (table w) rest (trace w ++ issued ++ [EvBrowser Quit])%list).
Proof.
  intros H issued.
  assert (Hmain : main U w = (Ok tt, mkWorld (table w) rest (trace w ++ issued)%list)).
  { unfold main. rewrite (bind_ok _ _ _ _ _ (probe_refused w e rest H)). simpl.
    unfold print, emit. simpl. now rewrite <- app_assoc. }
  split; [exact Hmain |].
  unfold program. rewrite (bind_ok _ _ _ _ _ Hmain).
  unfold browser, emit. simpl. now rewrite <- app_assoc.
Qed.

Lemma probe_failure_ends_the_run_witness :
  main Scenario.department Scenario.offline
  = (Ok tt,
     mkWorld [] []
       [EvStore SelectLimit1;
        EvPrint [PStr "Error connecting to Supabase:"; PStr "upstream connect error"];
        EvPrint [PStr "Exiting due to connection error"]]).
Proof.
  exact (proj1 (probe_failure_ends_the_run Scenario.department Scenario.offline
                  Scenario.APIError [] eq_refl)).
Defined.

(** C8, as the code has it.  [driver.quit()] follows [main()] with nothing
    to guard it.  When [main] returns, the program closes the browser as its
    last action; when [main] raises, the exception leaves the program and
    the browser is not closed. *)
Theorem browser_released_when_main_returns (U : Upstream) (w : World) :
  (forall w1, main U w = (Ok tt, w1) ->
     program U w = (Ok tt, mkWorld (table w1) (faults w1) (trace w1 ++ [EvBrowser Quit])%list)) /\
  (forall e w1, main U w = (Raise e, w1) ->
     program U w = (Raise e, w1) /\
     exists evs, trace w1 = (trace w ++ evs)%list /\ ~ In (EvBrowser Quit) evs).
Proof.
  split.
  - intros w1 H. unfold program. now rewrite (bind_ok _ _ _ _ _ H).
  - intros e w1 H. split.
    + unfold program. now rewrite (bind_raise _ _ _ _ _ H).
    + destruct (emits_main (fun ev => ev <> EvBrowser Quit) U (fun ev Hev => Hev) w)
        as (evs & Ht & Hall).
      rewrite H in Ht. simpl in Ht. exists evs. split; [exact Ht |].
      intros Hin. rewrite Forall_forall in Hall. now apply (Hall _ Hin).
Qed.

Lemma browser_released_when_main_returns_witness :
  program Scenario.department idle
  = (Ok tt, log [EvBrowser Quit] (snd (main Scenario.department idle))) /\
  program Scenario.unreachable idle
  = (Raise Scenario.ConnectionError, snd (main Scenario.unreachable idle)).
Proof.
  split.
  - apply (proj1 (browser_released_when_main_returns Scenario.department idle)).
    vm_compute. reflexivity.
  - apply (proj2 (browser_released_when_main_returns Scenario.unreachable idle)).
    vm_compute. reflexivity.
Defined.

(** C8 fails as stated: a profile that does not answer ends the program with
    the exception of the request, and no [driver.quit()] was issued. *)
Lemma browser_left_open_on_failure :
  let U := Scenario.unreachable in
  fst (program U idle) = Raise Scenario.ConnectionError /\
  In (EvBrowser (Navigate BASE_URL)) (trace (snd (program U idle))) /\
  ~ In (EvBrowser Quit) (trace (snd (program U idle))).
Proof.
  cbv zeta. split; [| split].
  - vm_compute. reflexivity.
  - vm_compute. tauto.
  - vm_compute. intuition discriminate.
Qed.

(** C9.  The links the scraper returns follow the cards of the page one by
    one, and the URL of each is the origin followed by the href as an
    f-string renders it: the href itself, or the word None when the anchor
    has no href.  Such a card is neither skipped nor an error. *)
Theorem profile_url_is_origin_then_href (U : Upstream) (url : string) (w w' : World)
    (professors_data : list ProfessorLink) :
  scrape_professor_links U url w = (Ok professors_data, w') ->
  exists clicks,
    length professors_data = length (page_cards U clicks) /\
    forall i card, nth_error (page_cards U clicks) i = Some card ->
      exists professor,
        nth_error professors_data i = Some professor /\
        rmp_link professor
        = "https://www.ratemyprofessors.com"
          ++ match card_href card with Some href => href | None => "None" end /\
        (card_href card = None ->
         rmp_link professor = "https://www.ratemyprofessors.comNone").
Proof.
  intros H. destruct (scrape_result U url w w' professors_data H) as (clicks & ->).
  exists clicks. split; [apply length_map |].
  intros i card Hi. exists (link_of_card card). split.
  - rewrite nth_error_map, Hi. reflexivity.
  - split; [reflexivity |]. intros Hnone. simpl. now rewrite Hnone.
Qed.

Lemma profile_url_is_origin_then_href_witness :
  exists professor,
    nth_error [mkLink "Ada Lovelace" "https://www.ratemyprofessors.com/professor/101";
               mkLink "Unknown" "https://www.ratemyprofessors.comNone"] 1
    = Some professor /\
    rmp_link professor = "https://www.ratemyprofessors.comNone".
Proof.
  destruct (profile_url_is_origin_then_href Scenario.anonymous BASE_URL idle
              (snd (scrape_professor_links Scenario.anonymous BASE_URL idle))
              [mkLink "Ada Lovelace" "https://www.ratemyprofessors.com/professor/101";
               mkLink "Unknown" "https://www.ratemyprofessors.comNone"]
              eq_refl) as (clicks & _ & H).
  destruct (H 1 (mkCard None None) eq_refl) as (professor & Hnth & _ & Hlink).
  exists professor. split; [exact Hnth | exact (Hlink eq_refl)].
Defined.

(** C10.  The update is filtered by the name alone.  When the table holds
    more than one row of the name and the store answers, one upsert issues
    one select and one update, after which every row of that name is the new
    record, link and counts alike, and the other rows are as before. *)
Theorem update_overwrites_every_row_of_the_name (professor : ProfessorLink)
    (professor_data : ProfessorRow) (w : World) :
  1 < count_name (name professor) (table w) ->
  first_fault 2 (faults w) = None ->
  store_professor professor professor_data w
  = (Ok tt,
     mkWorld
       (map (fun row => if String.eqb (row_name row) (name professor)
                        then professor_data else row) (table w))
       (tl (tl (faults w)))
       (trace w ++ [EvStore (SelectByName (name professor));
                    EvStore (UpdateByName professor_data (name professor));
                    EvPrint [PStr ("Stored ratings for " ++ name professor)]])%list).
Proof.
  intros Hcount Hok. rewrite (store_professor_answered _ _ _ Hok).
  unfold write_of, count_name in *.
  destruct (filter (name_is (name professor)) (table w)); [simpl in Hcount; lia |].
  reflexivity.
Qed.

Lemma update_overwrites_every_row_of_the_name_witness :
  let record := professor_data_of Scenario.ada_101 Scenario.rd_101 in
  table (snd (store_professor Scenario.ada_101 record Scenario.doubled))
  = [record; Scenario.stale "Grace Hopper" "old-g"; record].
Proof.
  intros record.
  rewrite (update_overwrites_every_row_of_the_name Scenario.ada_101 record Scenario.doubled).
  - reflexivity.
  - vm_compute. lia.
  - reflexivity.
Defined.

(** ** Further properties, by function *)

(** *** scrape_professor_links *)

(** X1.  The name of each link is the text of the name div of its card, and
    the word Unknown for a card without one; the card is kept either way. *)
Theorem scraped_names_default_to_unknown (U : Upstream) (url : string) (w w' : World)
    (professors_data : list ProfessorLink) :
  scrape_professor_links U url w = (Ok professors_data, w') ->
  exists clicks,
    forall i card, nth_error (page_cards U clicks) i = Some card ->
      exists professor,
        nth_error professors_data i = Some professor /\
        name professor
        = match card_name card with Some text => text | None => "Unknown" end.
Proof.
  intros H. destruct (scrape_result U url w w' professors_data H) as (clicks & ->).
  exists clicks. intros i card Hi. exists (link_of_card card). split.
  - rewrite nth_error_map, Hi. reflexivity.
  - reflexivity.
Qed.

Lemma scraped_names_default_to_unknown_witness :
  exists professor,
    nth_error [mkLink "Ada Lovelace" "https://www.ratemyprofessors.com/professor/101";
               mkLink "Unknown" "https://www.ratemyprofessors.comNone"] 1
    = Some professor /\
    name professor = "Unknown".
Proof.
  destruct (scraped_names_default_to_unknown Scenario.anonymous BASE_URL idle
              (snd (scrape_professor_links Scenario.anonymous BASE_URL idle))
              [mkLink "Ada Lovelace" "https://www.ratemyprofessors.com/professor/101";
               mkLink "Unknown" "https://www.ratemyprofessors.comNone"]
              eq_refl) as (clicks & H).
  destruct (H 1 (mkCard None None) eq_refl) as (professor & Hnth & Hname).
  exists professor. split; [exact Hnth | exact Hname].
Defined.

(** X2.  When the result page loads, and the passes of the Show More loop
    click or are intercepted until the button is not found, the scraper
    returns whatever the two overlays did.  Its links are the cards of the
    page after as many loads as clicks went through: an intercepted click is
    not counted, and nothing is tried after the button went missing. *)
Theorem scraper_reads_the_page_after_the_clicks (U : Upstream) (url : string)
    (before rest : list ShowMore) (w : World) :
  driver_get U url = None ->
  show_more U = (before ++ rest)%list ->
  forallb continues before = true ->
  match rest with [] => True | o :: _ => ends o = true end ->
  exists evs,
    scrape_professor_links U url w
    = (Ok (map link_of_card (page_cards U (clicks_of before))), log evs w).
Proof.
  intros Hget Hpasses Hbefore Hrest.
  assert (Hruns : runs (scrape_professor_links U url)
                    (Ok (map link_of_card (page_cards U (clicks_of before))))).
  { apply scrape_from_the_loop; [exact Hget |].
    apply runs_bind with (a := clicks_of before).
    - rewrite Hpasses. apply click_show_more_prefix; [exact Hbefore |].
      now apply click_show_more_end.
    - apply runs_bind with (a := tt); [apply runs_emit |].
      apply runs_bind with (a := tt); [apply runs_emit | apply runs_ret]. }
  destruct Hruns as (evs & Hevs). exists evs. apply Hevs.
Qed.

Lemma scraper_reads_the_page_after_the_clicks_witness :
  (exists evs,
     scrape_professor_links Scenario.department BASE_URL idle
     = (Ok [Scenario.ada_101; Scenario.alan_102; Scenario.ada_103], log evs idle)) /\
  (exists evs,
     scrape_professor_links Scenario.early_end BASE_URL idle
     = (Ok [Scenario.ada_101], log evs idle)).
Proof.
  split.
  - exact (scraper_reads_the_page_after_the_clicks Scenario.department BASE_URL
             [Clicked; ClickRaises Scenario.Intercepted; Clicked] [] idle
             eq_refl eq_refl eq_refl I).
  - exact (scraper_reads_the_page_after_the_clicks Scenario.early_end BASE_URL
             [Clicked]
             [FindRaises (mkExn NoSuchElementException "Message: no such element");
              Clicked; Clicked] idle
             eq_refl eq_refl eq_refl eq_refl).
Defined.

(** X3.  The loop handles two classes of exception.  One of another class,
    raised by a pass after passes that went on, leaves the loop and the
    scraper, which returns no link. *)
Theorem unhandled_pagination_failure_leaves_the_scraper (U : Upstream) (url : string)
    (before after : list ShowMore) (o : ShowMore) (e : Exn) (w : World) :
  driver_get U url = None ->
  show_more U = (before ++ o :: after)%list ->
  forallb continues before = true ->
  escapes o = Some e ->
  exists evs, scrape_professor_links U url w = (Raise e, log evs w).
Proof.
  intros Hget Hpasses Hbefore Ho.
  assert (Hruns : runs (scrape_professor_links U url) (Raise e)).
  { apply scrape_from_the_loop; [exact Hget |].
    apply runs_bind_raise. rewrite Hpasses.
    apply (click_show_more_prefix before (o :: after) (Raise e) Hbefore 0).
    now apply click_show_more_escape. }
  destruct Hruns as (evs & Hevs). exists evs. apply Hevs.
Qed.

Lemma unhandled_pagination_failure_leaves_the_scraper_witness :
  exists evs,
    scrape_professor_links Scenario.stale_button BASE_URL idle
    = (Raise Scenario.StaleElement, log evs idle).
Proof.
  exact (unhandled_pagination_failure_leaves_the_scraper Scenario.stale_button BASE_URL
           [Clicked; ClickRaises Scenario.Intercepted] [Clicked]
           (ClickRaises Scenario.StaleElement) Scenario.StaleElement idle
           eq_refl eq_refl eq_refl eq_refl).
Defined.

(** X4.  A result page that does not load ends the scraper at once: the
    exception of [driver.get] is raised after the first print, the timeout
    setting and the navigation, before any overlay or button is looked for. *)
Theorem page_load_failure_leaves_the_scraper (U : Upstream) (url : string) (e : Exn)
    (w : World) :
  driver_get U url = Some e ->
  scrape_professor_links U url w
  = (Raise e,
     log [EvPrint [PStr "Starting professor link scraping..."];
          EvBrowser (SetPageLoadTimeout 300);
          EvBrowser (Navigate url)] w).
Proof.
  intros H. unfold scrape_professor_links, bind, print, browser, emit, answer, raise, log.
  rewrite H. simpl. now rewrite <- !app_assoc.
Qed.

Lemma page_load_failure_leaves_the_scraper_witness :
  scrape_professor_links Scenario.never_loads BASE_URL idle
  = (Raise Scenario.TimeoutException,
     log [EvPrint [PStr "Starting professor link scraping..."];
          EvBrowser (SetPageLoadTimeout 300);
          EvBrowser (Navigate BASE_URL)] idle).
Proof.
  exact (page_load_failure_leaves_the_scraper Scenario.never_loads BASE_URL
           Scenario.TimeoutException idle eq_refl).
Defined.

(** X5.  Whatever the browser answers and whatever the scraper returns, it
    leaves the table and the store alone and requests nothing over HTTP: all
    it does is print, sleep and drive the browser, which it never quits. *)
Theorem scraper_only_drives_the_browser (U : Upstream) (url : string) (w : World) :
  exists evs,
    snd (scrape_professor_links U url w)
    = mkWorld (table w) (faults w) (trace w ++ evs)%list /\
    forallb is_local evs = true /\
    filter is_store evs = [] /\
    http_gets evs = [].
Proof.
  destruct (scrape_run U url w) as (evs & Hs & Hlocal).
  exists evs. rewrite Hs. split; [reflexivity |]. split; [exact Hlocal |].
  now apply local_events_are_quiet.
Qed.

(** *** fetch_rating_distributions *)

(** X6.  A script that holds the marker but no assignment of an object
    literal makes [re.search] return [None], and the extractor raises the
    AttributeError of [.group] on it. *)
Theorem marker_without_object_raises (U : Upstream) (link body script : string)
    (w : World) :
  requests_get U link = Ok body ->
  soup_find_script U body "window.__RELAY_STORE__" = Some script ->
  re_search_group1 U "window\.__RELAY_STORE__\s*=\s*({.*?});" script = None ->
  fetch_rating_distributions U link w
  = (Raise (mkExn "AttributeError" "'NoneType' object has no attribute 'group'"),
     log [EvHttpGet link] w).
Proof.
  intros Hget Hfind Hre. rewrite fetch_run. f_equal.
  unfold outcome, fetch_rating_distributions, http_get, bind, emit, lift, ret, raise.
  simpl. now rewrite Hget, Hfind, Hre.
Qed.

Lemma marker_without_object_raises_witness :
  fetch_rating_distributions Scenario.shapes (Scenario.url "/professor/101") idle
  = (Raise (mkExn "AttributeError" "'NoneType' object has no attribute 'group'"),
     log [EvHttpGet (Scenario.url "/professor/101")] idle).
Proof.
  apply (marker_without_object_raises Scenario.shapes (Scenario.url "/professor/101")
           (Scenario.body_of Scenario.null_script) Scenario.null_script idle);
    vm_compute; reflexivity.
Defined.

(** X7.  When the blob parses to a dict none of whose values is a dict
    tagged ratingsDistribution, the extractor returns no data, and the pass
    of the loop prints that none was found and issues no store call. *)
Theorem untagged_blob_is_no_data (U : Upstream) (professor : ProfessorLink)
    (body script json_str : string) (items : pydict) (w : World) :
  requests_get U (rmp_link professor) = Ok body ->
  soup_find_script U body "window.__RELAY_STORE__" = Some script ->
  re_search_group1 U "window\.__RELAY_STORE__\s*=\s*({.*?});" script = Some json_str ->
  json_loads U json_str = Ok (PyDict items) ->
  (forall item, In item items -> is_ratings_distribution (snd item) = false) ->
  outcome (fetch_rating_distributions U (rmp_link professor)) = Ok None /\
  process_professor U professor w
  = (Ok tt,
     mkWorld (table w) (faults w)
       (trace w ++ [EvPrint [PStr ("Fetching ratings for " ++ name professor)];
                    EvHttpGet (rmp_link professor);
                    EvPrint [PStr ("No rating distributions found for "
                                   ++ name professor)]])%list).
Proof.
  intros Hget Hfind Hre Hjson Hnone.
  assert (Hfetch : outcome (fetch_rating_distributions U (rmp_link professor)) = Ok None).
  { unfold outcome, fetch_rating_distributions, http_get, bind, emit, lift, ret. simpl.
    rewrite Hget, Hfind, Hre, Hjson. simpl. now rewrite scan_items_none. }
  split; [exact Hfetch |].
  now rewrite (process_professor_no_data U professor w None Hfetch).
Qed.

Lemma untagged_blob_is_no_data_witness :
  outcome (fetch_rating_distributions Scenario.shapes (rmp_link Scenario.alan_102))
  = Ok None.
Proof.
  refine (proj1 (untagged_blob_is_no_data Scenario.shapes Scenario.alan_102
                   (Scenario.body_of (Scenario.script_of Scenario.blob_plain))
                   (Scenario.script_of Scenario.blob_plain) Scenario.blob_plain
                   [("client:root", PyDict [("__typename", PyStr "Query")]);
                    ("legacyId", PyInt 101)] idle _ _ _ _ _));
    try (vm_compute; reflexivity).
  intros item [<- | [<- | []]]; reflexivity.
Defined.

(** X8.  The scan stops at the first value that is a dict tagged
    ratingsDistribution: that one is returned, whatever comes after it,
    other tagged dicts included. *)
Theorem first_tagged_value_wins (U : Upstream) (link body script json_str : string)
    (before after : pydict) (key : string) (rd : pydict) :
  requests_get U link = Ok body ->
  soup_find_script U body "window.__RELAY_STORE__" = Some script ->
  re_search_group1 U "window\.__RELAY_STORE__\s*=\s*({.*?});" script = Some json_str ->
  json_loads U json_str = Ok (PyDict (before ++ (key, PyDict rd) :: after)%list) ->
  (forall item, In item before -> is_ratings_distribution (snd item) = false) ->
  is_ratings_distribution (PyDict rd) = true ->
  outcome (fetch_rating_distributions U link) = Ok (Some rd).
Proof.
  intros Hget Hfind Hre Hjson Hbefore Htag.
  unfold outcome, fetch_rating_distributions, http_get, bind, emit, lift, ret. simpl.
  rewrite Hget, Hfind, Hre, Hjson. simpl. f_equal. f_equal.
  now apply scan_items_first.
Qed.

Lemma first_tagged_value_wins_witness :
  outcome (fetch_rating_distributions Scenario.shapes (Scenario.url "/professor/103"))
  = Ok (Some Scenario.rd_first).
Proof.
  refine (first_tagged_value_wins Scenario.shapes (Scenario.url "/professor/103")
            (Scenario.body_of (Scenario.script_of Scenario.blob_two))
            (Scenario.script_of Scenario.blob_two) Scenario.blob_two
            [] [("b", PyDict Scenario.rd_second)] "a" Scenario.rd_first _ _ _ _ _ _);
    try (vm_compute; reflexivity).
  intros item [].
Defined.

(** X9.  A dict the extractor returns is tagged ratingsDistribution, so it
    is never empty and the test of [main] on it holds: the pass of the loop
    goes on to the store, and its first call there is the select by the
    name of the professor. *)
Theorem returned_distribution_reaches_the_store (U : Upstream)
    (professor : ProfessorLink) (rd : pydict) (w : World) :
  outcome (fetch_rating_distributions U (rmp_link professor)) = Ok (Some rd) ->
  is_ratings_distribution (PyDict rd) = true /\
  exists w' evs,
    process_professor U professor w = (Ok tt, w') /\
    trace w'
    = (trace w ++ [EvPrint [PStr ("Fetching ratings for " ++ name professor)];
                   EvHttpGet (rmp_link professor);
                   EvStore (SelectByName (name professor))] ++ evs)%list.
Proof.
  intros Hfetch. split; [now apply fetch_result_tagged with (U := U) (link := rmp_link professor) |].
  destruct (fetch_result_found U _ rd Hfetch) as (item & items & ->).
  rewrite (process_professor_found U professor w item items Hfetch).
  destruct (store_professor_no_http professor (professor_data_of professor (item :: items))
              (log [EvPrint [PStr ("Fetching ratings for " ++ name professor)];
                    EvHttpGet (rmp_link professor)] w)) as (w' & evs & Hw' & Htr & _).
  exists w', evs. split; [exact Hw' |].
  rewrite Htr. simpl. now rewrite <- app_assoc.
Qed.

Lemma returned_distribution_reaches_the_store_witness :
  is_ratings_distribution (PyDict Scenario.rd_101) = true /\
  exists w' evs,
    process_professor Scenario.department Scenario.ada_101 idle = (Ok tt, w') /\
    trace w'
    = ([] ++ [EvPrint [PStr ("Fetching ratings for " ++ name Scenario.ada_101)];
              EvHttpGet (rmp_link Scenario.ada_101);
              EvStore (SelectByName (name Scenario.ada_101))] ++ evs)%list.
Proof.
  apply (returned_distribution_reaches_the_store Scenario.department Scenario.ada_101
           Scenario.rd_101 idle).
  vm_compute. reflexivity.
Defined.

(** X10.  Whatever the page holds and whatever the extractor returns or
    raises, it issues the one HTTP request for the link and nothing else: it
    leaves the table, the store and the browser alone. *)
Theorem extractor_issues_one_request (U : Upstream) (link : string) (w : World) :
  snd (fetch_rating_distributions U link w)
  = mkWorld (table w) (faults w) (trace w ++ [EvHttpGet link])%list.
Proof.
  unfold fetch_rating_distributions, http_get, bind, emit, lift, ret, raise. simpl.
  destruct (requests_get U link) as [body | e]; [| reflexivity].
  destruct (soup_find_script U body _) as [script |]; [| reflexivity].
  destruct (re_search_group1 U _ script) as [json_str |]; [| reflexivity].
  destruct (json_loads U json_str) as [[] | e]; reflexivity.
Qed.

(** *** test_supabase_connection *)

(** X11.  The probe never raises and never changes the table.  It uses one
    store call, the select of one row, and returns true exactly when that
    call is answered. *)
Theorem probe_never_raises (w : World) :
  exists connected evs,
    test_supabase_connection w
    = (Ok connected, mkWorld (table w) (tl (faults w)) (trace w ++ evs)%list) /\
    (connected = true <-> hd None (faults w) = None) /\
    filter is_store evs = [EvStore SelectLimit1].
Proof.
  destruct (probe_cases w) as (connected & evs & Hrun & Hiff & Hstore & _).
  exists connected, evs. auto.
Qed.

(** *** main *)

(** X12.  For a name without a row, and a store that answers, the upsert
    issues the select and one insert: the record is added at the end of the
    table and every row that was there is as before. *)
Theorem absent_name_is_inserted (professor : ProfessorLink) (professor_data : ProfessorRow)
    (w : World) :
  count_name (name professor) (table w) = 0 ->
  first_fault 2 (faults w) = None ->
  store_professor professor professor_data w
  = (Ok tt,
     mkWorld (table w ++ [professor_data])%list (tl (tl (faults w)))
       (trace w ++ [EvStore (SelectByName (name professor));
                    EvStore (Insert professor_data);
                    EvPrint [PStr ("Stored ratings for " ++ name professor)]])%list).
Proof.
  intros Hcount Hok. rewrite (store_professor_answered _ _ _ Hok).
  unfold write_of, count_name in *.
  destruct (filter (name_is (name professor)) (table w)); [reflexivity | discriminate].
Qed.

Lemma absent_name_is_inserted_witness :
  let record := professor_data_of Scenario.alan_102 Scenario.rd_103 in
  table (snd (store_professor Scenario.alan_102 record Scenario.doubled))
  = (table Scenario.doubled ++ [record])%list.
Proof.
  intros record.
  rewrite (absent_name_is_inserted Scenario.alan_102 record Scenario.doubled).
  - reflexivity.
  - vm_compute. reflexivity.
  - reflexivity.
Defined.

(** X13.  When the select of the upsert fails, no write follows: the
    failure is caught, the select is the only store call of that professor,
    the error is printed with the name and the message of the exception, and
    the table is as before. *)
Theorem failed_select_skips_the_write (professor : ProfessorLink)
    (professor_data : ProfessorRow) (w : World) (e : Exn) (rest : list (option Exn)) :
  faults w = Some e :: rest ->
  store_professor professor professor_data w
  = (Ok tt,
     mkWorld (table w) rest
       (trace w ++ [EvStore (SelectByName (name professor));
                    EvPrint [PStr ("Error storing data for " ++ name professor ++ ": "
                                   ++ exn_msg e)]])%list).
Proof.
  intros H.
  unfold store_professor, try_except, bind, execute.
  rewrite H. cbn [fst snd table faults trace].
  unfold print, emit. cbn [fst snd table faults trace].
  now rewrite <- app_assoc.
Qed.

Lemma failed_select_skips_the_write_witness :
  store_professor Scenario.ada_101 (professor_data_of Scenario.ada_101 Scenario.rd_101)
    Scenario.offline
  = (Ok tt,
     mkWorld [] []
       [EvStore (SelectByName "Ada Lovelace");
        EvPrint [PStr "Error storing data for Ada Lovelace: upstream connect error"]]).
Proof.
  rewrite (failed_select_skips_the_write Scenario.ada_101
             (professor_data_of Scenario.ada_101 Scenario.rd_101) Scenario.offline
             Scenario.APIError [] eq_refl).
  vm_compute. reflexivity.
Defined.

(** X14.  A run never takes a row away, and it adds at most one row per
    name, to a name that had none: whatever the upstream and the store do,
    the number of rows of a name after [main] is between the number before
    and the larger of that number and one. *)
Theorem run_adds_at_most_one_row_per_name (U : Upstream) (w : World) (n : string) :
  count_name n (table w) <= count_name n (table (snd (main U w)))
  <= Nat.max 1 (count_name n (table w)).
Proof.
  destruct (inserts_fresh_main U w) as (evs & _ & _ & Hc). apply Hc.
Qed.

(** X15.  The rows of a name that is not the name of any scraped professor
    are untouched by a run, whatever the store does: they are the same rows
    in the same order. *)
Theorem rows_of_unscraped_names_are_untouched (U : Upstream) (w : World)
    (professors_data : list ProfessorLink) (n : string) :
  outcome (scrape_professor_links U BASE_URL) = Ok professors_data ->
  (forall professor, In professor professors_data -> name professor <> n) ->
  filter (name_is n) (table (snd (main U w))) = filter (name_is n) (table w).
Proof.
  intros Hscrape Hn. unfold main.
  destruct (probe_cases w) as (connected & evs & Hprobe & _).
  rewrite (bind_ok _ _ _ _ _ Hprobe). destruct connected; simpl; [| reflexivity].
  destruct (scrape_run U BASE_URL (mkWorld (table w) (tl (faults w)) (trace w ++ evs)%list))
    as (evs' & Hs & _).
  rewrite Hscrape in Hs. rewrite (bind_ok _ _ _ _ _ Hs).
  pose proof (for_each_professor_other U professors_data n Hn
                (log evs' (mkWorld (table w) (tl (faults w)) (trace w ++ evs)%list))) as Hloop.
  unfold bind.
  destruct (for_each_professor U professors_data _) as [[[] | e] w2]; simpl in *;
    exact Hloop.
Qed.

Lemma rows_of_unscraped_names_are_untouched_witness :
  filter (name_is "Grace Hopper") (table (snd (main Scenario.department Scenario.doubled)))
  = filter (name_is "Grace Hopper") (table Scenario.doubled).
Proof.
  apply (rows_of_unscraped_names_are_untouched Scenario.department Scenario.doubled
           [Scenario.ada_101; Scenario.alan_102; Scenario.ada_103]).
  - vm_compute. reflexivity.
  - intros professor [<- | [<- | [<- | []]]]; discriminate.
Defined.

(** X16.  As long as no extraction raises, the loop requests each profile
    once, in the order of the scraped list: a failure of the store leads to
    no second request, and nothing else is requested. *)
Theorem each_profile_is_requested_once (U : Upstream)
    (professors_data : list ProfessorLink) :
  (forall professor, In professor professors_data ->
     exists rd, outcome (fetch_rating_distributions U (rmp_link professor)) = Ok rd) ->
  forall w, exists w' evs,
    for_each_professor U professors_data w = (Ok tt, w') /\
    trace w' = (trace w ++ evs)%list /\
    http_gets evs = map rmp_link professors_data.
Proof.
  induction professors_data as [| p l IH]; intros Hl w.
  - exists w, []. split; [reflexivity |]. split; [now rewrite app_nil_r | reflexivity].
  - destruct (Hl p (or_introl eq_refl)) as (rd & Hrd).
    destruct (process_professor_one_request U p w rd Hrd) as (wp & evs1 & Hp & Ht1 & Hh1).
    destruct (IH (fun q Hq => Hl q (or_intror Hq)) wp) as (w' & evs2 & Hrest & Ht2 & Hh2).
    exists w', (evs1 ++ evs2)%list. split; [| split].
    + simpl. now rewrite (bind_ok _ _ _ _ _ Hp).
    + now rewrite Ht2, Ht1, app_assoc.
    + rewrite http_gets_app, Hh1, Hh2. reflexivity.
Qed.

Lemma each_profile_is_requested_once_witness :
  exists w' evs,
    for_each_professor Scenario.department
      [Scenario.ada_101; Scenario.alan_102; Scenario.ada_103]
      (mkWorld [] [None; Some Scenario.APIError] []) = (Ok tt, w') /\
    trace w' = ([] ++ evs)%list /\
    http_gets evs
    = map rmp_link [Scenario.ada_101; Scenario.alan_102; Scenario.ada_103].
Proof.
  apply (each_profile_is_requested_once Scenario.department
           [Scenario.ada_101; Scenario.alan_102; Scenario.ada_103]).
  intros professor [<- | [<- | [<- | []]]]; eexists; vm_compute; reflexivity.
Defined.

(** X17.  When the probe is answered and the scraper raises, [main] ends
    with that exception before the loop: the probe is its only store call,
    no profile is requested and the table is as before. *)
Theorem scrape_failure_ends_main (U : Upstream) (w : World) (e : Exn) :
  hd None (faults w) = None ->
  outcome (scrape_professor_links U BASE_URL) = Raise e ->
  exists evs,
    main U w = (Raise e, mkWorld (table w) (tl (faults w)) (trace w ++ evs)%list) /\
    filter is_store evs = [EvStore SelectLimit1] /\
    http_gets evs = [].
Proof.
  intros Hhd Hscrape. unfold main.
  rewrite (bind_ok _ _ _ _ _ (probe_answered w Hhd)). simpl.
  match goal with |- context [bind (scrape_professor_links U BASE_URL) _ ?w1] =>
    destruct (scrape_run U BASE_URL w1) as (evs & Hs & Hlocal) end.
  rewrite Hscrape in Hs. rewrite (bind_raise _ _ _ _ _ Hs).
  destruct (local_events_are_quiet evs Hlocal) as [Hstore Hhttp].
  exists ([EvStore SelectLimit1;
           EvPrint [PStr "Successfully connected to Supabase!"];
           EvPrint [PStr "Sample data:"; PRows (firstn 1 (table w))]] ++ evs)%list.
  split.
  - unfold log. simpl. now rewrite <- !app_assoc.
  - split.
    + rewrite filter_app, Hstore. reflexivity.
    + rewrite http_gets_app, Hhttp. reflexivity.
Qed.

Lemma scrape_failure_ends_main_witness :
  exists evs,
    main Scenario.never_loads Scenario.doubled
    = (Raise Scenario.TimeoutException,
       mkWorld (table Scenario.doubled) (tl (faults Scenario.doubled))
         (trace Scenario.doubled ++ evs)%list) /\
    filter is_store evs = [EvStore SelectLimit1] /\
    http_gets evs = [].
Proof.
  apply (scrape_failure_ends_main Scenario.never_loads Scenario.doubled
           Scenario.TimeoutException).
  - reflexivity.
  - vm_compute. reflexivity.
Defined.

(** X18.  When the probe is answered and the result page holds no card,
    [main] completes: it prints that it is done, the probe is its only store
    call, no profile is requested and the table is as before. *)
Theorem empty_result_page_completes (U : Upstream) (w : World) :
  hd None (faults w) = None ->
  outcome (scrape_professor_links U BASE_URL) = Ok [] ->
  exists evs,
    main U w
    = (Ok tt,
       mkWorld (table w) (tl (faults w))
         (trace w ++ evs
          ++ [EvPrint [PStr "Completed scraping and storing professor data."]])%list) /\
    filter is_store evs = [EvStore SelectLimit1] /\
    http_gets evs = [].
Proof.
  intros Hhd Hscrape. unfold main.
  rewrite (bind_ok _ _ _ _ _ (probe_answered w Hhd)). simpl.
  match goal with |- context [bind (scrape_professor_links U BASE_URL) _ ?w1] =>
    destruct (scrape_run U BASE_URL w1) as (evs & Hs & Hlocal) end.
  rewrite Hscrape in Hs. rewrite (bind_ok _ _ _ _ _ Hs). simpl.
  destruct (local_events_are_quiet evs Hlocal) as [Hstore Hhttp].
  exists ([EvStore SelectLimit1;
           EvPrint [PStr "Successfully connected to Supabase!"];
           EvPrint [PStr "Sample data:"; PRows (firstn 1 (table w))]] ++ evs)%list.
  split.
  - unfold bind, ret, print, emit, log. simpl. now rewrite <- !app_assoc.
  - split.
    + rewrite filter_app, Hstore. reflexivity.
    + rewrite http_gets_app, Hhttp. reflexivity.
Qed.

Lemma empty_result_page_completes_witness :
  exists evs,
    main Scenario.empty_department Scenario.doubled
    = (Ok tt,
       mkWorld (table Scenario.doubled) (tl (faults Scenario.doubled))
         (trace Scenario.doubled ++ evs
          ++ [EvPrint [PStr "Completed scraping and storing professor data."]])%list) /\
    filter is_store evs = [EvStore SelectLimit1] /\
    http_gets evs = [].
Proof.
  apply (empty_result_page_completes Scenario.empty_department Scenario.doubled).
  - reflexivity.
  - vm_compute. reflexivity.
Defined.

(** X19.  When the probe is answered, the scraper returns and no extraction
    raises, [main] completes whatever the store answers to the upserts:
    every scraped profile is requested and the last thing printed is that
    the run is done. *)
Theorem main_completes_whatever_the_store_answers (U : Upstream) (w : World)
    (professors_data : list ProfessorLink) :
  hd None (faults w) = None ->
  outcome (scrape_professor_links U BASE_URL) = Ok professors_data ->
  (forall professor, In professor professors_data ->
     exists rd, outcome (fetch_rating_distributions U (rmp_link professor)) = Ok rd) ->
  exists w' evs,
    main U w = (Ok tt, w') /\
    trace w'
    = (trace w ++ evs
       ++ [EvPrint [PStr "Completed scraping and storing professor data."]])%list /\
    forall professor, In professor professors_data ->
      In (EvHttpGet (rmp_link professor)) evs.
Proof.
  intros Hhd Hscrape Hfetch. unfold main.
  rewrite (bind_ok _ _ _ _ _ (probe_answered w Hhd)). simpl.
  match goal with |- context [bind (scrape_professor_links U BASE_URL) _ ?w1] =>
    destruct (scrape_run U BASE_URL w1) as (evs1 & Hs & _) end.
  rewrite Hscrape in Hs. rewrite (bind_ok _ _ _ _ _ Hs).
  match type of Hs with _ = (_, ?w2) =>
    destruct (for_each_professor_attempts U professors_data Hfetch w2)
      as (w3 & evs2 & Hloop & Htr & Hall) end.
  rewrite (bind_ok _ _ _ _ _ Hloop).
  exists (log [EvPrint [PStr "Completed scraping and storing professor data."]] w3).
  exists ([EvStore SelectLimit1;
           EvPrint [PStr "Successfully connected to Supabase!"];
           EvPrint [PStr "Sample data:"; PRows (firstn 1 (table w))]]
          ++ evs1 ++ evs2)%list.
  split; [reflexivity |]. split.
  - unfold log. simpl. rewrite Htr. unfold log. simpl. now rewrite <- !app_assoc.
  - intros professor Hin. apply in_or_app. right. apply in_or_app. right. now apply Hall.
Qed.

Lemma main_completes_whatever_the_store_answers_witness :
  exists w' evs,
    main Scenario.department (mkWorld [] [None; Some Scenario.APIError] [])
    = (Ok tt, w') /\
    trace w'
    = ([] ++ evs
       ++ [EvPrint [PStr "Completed scraping and storing professor data."]])%list /\
    forall professor,
      In professor [Scenario.ada_101; Scenario.alan_102; Scenario.ada_103] ->
      In (EvHttpGet (rmp_link professor)) evs.
Proof.
  apply (main_completes_whatever_the_store_answers Scenario.department
           (mkWorld [] [None; Some Scenario.APIError] [])
           [Scenario.ada_101; Scenario.alan_102; Scenario.ada_103]).
  - reflexivity.
  - vm_compute. reflexivity.
  - intros professor [<- | [<- | [<- | []]]]; eexists; vm_compute; reflexivity.
Defined.

(** X20.  When the search of line 91 finds no script in the markup of a
    profile, the extractor returns no data, and the pass of the loop for that
    professor consists of the two prints and the HTTP request: no select, no
    update and no insert is issued, and the table and the answers the store
    has yet to give are as before. *)
Theorem marker_absent_no_store_call (U : Upstream) (professor : ProfessorLink)
    (body : string) (w : World) :
  requests_get U (rmp_link professor) = Ok body ->
  soup_find_script U body "window.__RELAY_STORE__" = None ->
  let issued :=
    [EvPrint [PStr ("Fetching ratings for " ++ name professor)];
     EvHttpGet (rmp_link professor);
     EvPrint [PStr ("No rating distributions found for " ++ name professor)]] in
  outcome (fetch_rating_distributions U (rmp_link professor)) = Ok None /\
  process_professor U professor w
  = (Ok tt, mkWorld (table w) (faults w) (trace w ++ issued)%list) /\
  existsb is_store issued = false.
Proof.
  intros Hget Hfind issued.
  assert (Hnone : outcome (fetch_rating_distributions U (rmp_link professor)) = Ok None).
  { unfold outcome, fetch_rating_distributions, http_get, bind, emit, lift, ret. simpl.
    now rewrite Hget, Hfind. }
  split; [exact Hnone |]. split; [| reflexivity].
  now rewrite (process_professor_no_data U professor w None Hnone).
Qed.

Lemma marker_absent_no_store_call_witness :
  process_professor Scenario.department Scenario.alan_102 Scenario.doubled
  = (Ok tt,
     mkWorld (table Scenario.doubled) []
       [EvPrint [PStr "Fetching ratings for Alan Turing"];
        EvHttpGet "https://www.ratemyprofessors.com/professor/102";
        EvPrint [PStr "No rating distributions found for Alan Turing"]]).
Proof.
  exact (proj1 (proj2 (marker_absent_no_store_call Scenario.department Scenario.alan_102
                         Scenario.body_102 Scenario.doubled eq_refl eq_refl))).
Defined.
